(** * IRac: the vendor-neutral A/C facade of LightIRremoteESP8266

    A shallow embedding of [src/IRac.cpp]: the common A/C state, the
    string/enum parsers and renderers, the state normaliser
    ([cleanState]), the toggle resolver ([handleToggles]), the dispatcher
    ([isProtocolSupported], the three [sendAc] overloads, [markAsSent],
    [cmpStates]) and the decoded-frame renderer
    ([IRAcUtils::resultAcToString]).

    Conventions of the embedding
    - [int16_t] fields ([model], [sleep], [clock]) are [Z]; the code only
      compares them, so no wrap-around is involved.
    - A C [float] temperature is an exact rational number or NaN: the code
      only copies temperatures, compares them with [!=], tests them for
      zero and hands them to [fahrenheitToCelsius], and NaN is the one
      value on which [!=] is not the negation of equality.  Rounding,
      infinities and the sign of zero are outside the model.
    - [const state_t *prev] is [option state_t]; [None] is the null pointer.
    - A vendor driver object is observed through the sequence of method
      calls the dispatcher makes on it.
    - Preprocessor switches ([SEND_xxx], [DECODE_xxx]) are looked up in a
      [build_config], which says for each switch whether it is on. *)

From Stdlib Require Import ZArith QArith Qcanon Bool List String Ascii Lia.
Import ListNotations.

Local Open Scope Z_scope.

(** ** The protocol tag, [decode_type_t]

    The constructors are the enumerators that [IRac.cpp] names.  Every other
    enumerator (NEC, SONY, RC5, ...: protocols that are not air
    conditioners) is [OTHER code]. *)

Inductive decode_type_t : Type :=
| UNKNOWN | UNUSED
| AIRTON | AIRWELL | AMCOR | ARGO | BOSCH144 | CARRIER_AC64 | COOLIX
| CORONA_AC | DAIKIN | DAIKIN128 | DAIKIN152 | DAIKIN160 | DAIKIN176
| DAIKIN2 | DAIKIN216 | DAIKIN64 | DELONGHI_AC | ECOCLIM | ELECTRA_AC
| FUJITSU_AC | GOODWEATHER | GREE | HAIER_AC | HAIER_AC160 | HAIER_AC176
| HAIER_AC_YRW02 | HITACHI_AC | HITACHI_AC1 | HITACHI_AC264 | HITACHI_AC296
| HITACHI_AC344 | HITACHI_AC424 | KELON | KELVINATOR | LG | LG2 | MIDEA
| MIRAGE | MITSUBISHI_AC | MITSUBISHI112 | MITSUBISHI136
| MITSUBISHI_HEAVY_88 | MITSUBISHI_HEAVY_152 | NEOCLIMA | PANASONIC_AC
| PANASONIC_AC32 | RHOSS | SAMSUNG_AC | SANYO_AC | SANYO_AC88 | SHARP_AC
| TCL112AC | TECHNIBEL_AC | TECO | TEKNOPOINT | TOSHIBA_AC | TRANSCOLD
| TROTEC | TROTEC_3550 | TRUMA | VESTEL_AC | VOLTAS | YORK | WHIRLPOOL_AC
| OTHER (code : Z).

Definition decode_type_eq_dec (a b : decode_type_t) : {a = b} + {a <> b}.
Proof. decide equality. apply Z.eq_dec. Defined.

Definition decode_type_eqb (a b : decode_type_t) : bool :=
  if decode_type_eq_dec a b then true else false.

(** ** Temperatures *)

Inductive float : Type :=
| Fnum (q : Qc)   (* a number *)
| FNaN.           (* not a number *)

Definition float_of_Z (z : Z) : float := Fnum (Q2Qc (inject_Z z)).

Definition float_isnan (a : float) : bool :=
  match a with
  | Fnum _ => false
  | FNaN => true
  end.

(** The number a temperature holds, if it holds one. *)
Definition float_value (a : float) : option Q :=
  match a with
  | Fnum q => Some (this q)
  | FNaN => None
  end.

(** C's [a == b] on temperatures: NaN is equal to nothing, itself
    included. *)
Definition float_eqb (a b : float) : bool :=
  match a, b with
  | Fnum x, Fnum y => Qeq_bool (this x) (this y)
  | _, _ => false
  end.

(** C's truth value of a temperature: it is not equal to zero (so NaN is
    true). *)
Definition float_truthy (a : float) : bool := negb (float_eqb a (float_of_Z 0)).

(** Modelled from the spec: [fahrenheitToCelsius] lives in [IRutils], which
    is not part of the sources at hand; the spec calls it the standard
    Fahrenheit-to-Celsius formula, [(f - 32) / 1.8].  Arithmetic on NaN
    gives NaN. *)
Definition fahrenheitToCelsius (deg : float) : float :=
  match deg with
  | Fnum q => Fnum ((q - Q2Qc (32 # 1)) / Q2Qc (18 # 10))%Qc
  | FNaN => FNaN
  end.

(** ** Namespace [stdAc]: the common A/C vocabulary *)

Module stdAc.

Module opmode_t.
Inductive t : Type := kOff | kAuto | kCool | kHeat | kDry | kFan.
Definition eq_dec (a b : t) : {a = b} + {a <> b}.
Proof. decide equality. Defined.
Definition eqb (a b : t) : bool := if eq_dec a b then true else false.
End opmode_t.

Module fanspeed_t.
Inductive t : Type :=
  kAuto | kMin | kLow | kMedium | kHigh | kMax | kMediumHigh.
Definition eq_dec (a b : t) : {a = b} + {a <> b}.
Proof. decide equality. Defined.
Definition eqb (a b : t) : bool := if eq_dec a b then true else false.
End fanspeed_t.

Module swingv_t.
Inductive t : Type :=
  kOff | kAuto | kHighest | kHigh | kMiddle | kLow | kLowest | kUpperMiddle.
Definition eq_dec (a b : t) : {a = b} + {a <> b}.
Proof. decide equality. Defined.
Definition eqb (a b : t) : bool := if eq_dec a b then true else false.
End swingv_t.

Module swingh_t.
Inductive t : Type :=
  kOff | kAuto | kLeftMax | kLeft | kMiddle | kRight | kRightMax | kWide.
Definition eq_dec (a b : t) : {a = b} + {a <> b}.
Proof. decide equality. Defined.
Definition eqb (a b : t) : bool := if eq_dec a b then true else false.
End swingh_t.

Module ac_command_t.
Inductive t : Type :=
  kControlCommand | kSensorTempReport | kTimerCommand | kConfigCommand.
Definition eq_dec (a b : t) : {a = b} + {a <> b}.
Proof. decide equality. Defined.
Definition eqb (a b : t) : bool := if eq_dec a b then true else false.
End ac_command_t.

(** [stdAc::state_t], the common state.  The field order is the one
    [IRac::cmpStates] walks through, with [clock] where [initState] sets
    it. *)
Record state_t : Type := mk_state {
  protocol : decode_type_t;
  model : Z;
  power : bool;
  mode : opmode_t.t;
  degrees : float;
  celsius : bool;
  fanspeed : fanspeed_t.t;
  swingv : swingv_t.t;
  swingh : swingh_t.t;
  quiet : bool;
  turbo : bool;
  econo : bool;
  light : bool;
  filter : bool;
  clean : bool;
  beep : bool;
  sleep : Z;
  clock : Z;
  command : ac_command_t.t;
  sensorTemperature : float;
  iFeel : bool
}.

(** Modelled from the spec: the default member initialisers of [state_t]
    are declared in [IRsend.h], which is not part of the sources at hand;
    the values are the "Default" column of the data model. *)
Definition state_default : state_t :=
  {| protocol := UNKNOWN; model := 1; power := false;
     mode := opmode_t.kAuto; degrees := float_of_Z 25; celsius := true;
     fanspeed := fanspeed_t.kAuto; swingv := swingv_t.kOff;
     swingh := swingh_t.kOff; quiet := false; turbo := false;
     econo := false; light := false; filter := false; clean := false;
     beep := false; sleep := -1; clock := -1;
     command := ac_command_t.kControlCommand;
     sensorTemperature := float_of_Z 25; iFeel := false |}.

End stdAc.

Import stdAc.

(** *** Assignments to single fields of a [state_t] *)

Definition set_protocol (v : decode_type_t) (s : state_t) : state_t :=
  mk_state v (model s) (power s) (mode s) (degrees s) (celsius s)
    (fanspeed s) (swingv s) (swingh s) (quiet s) (turbo s) (econo s)
    (light s) (filter s) (clean s) (beep s) (sleep s) (clock s) (command s)
    (sensorTemperature s) (iFeel s).

Definition set_power (v : bool) (s : state_t) : state_t :=
  mk_state (protocol s) (model s) v (mode s) (degrees s) (celsius s)
    (fanspeed s) (swingv s) (swingh s) (quiet s) (turbo s) (econo s)
    (light s) (filter s) (clean s) (beep s) (sleep s) (clock s) (command s)
    (sensorTemperature s) (iFeel s).

Definition set_swingv (v : swingv_t.t) (s : state_t) : state_t :=
  mk_state (protocol s) (model s) (power s) (mode s) (degrees s) (celsius s)
    (fanspeed s) v (swingh s) (quiet s) (turbo s) (econo s)
    (light s) (filter s) (clean s) (beep s) (sleep s) (clock s) (command s)
    (sensorTemperature s) (iFeel s).

Definition set_turbo (v : bool) (s : state_t) : state_t :=
  mk_state (protocol s) (model s) (power s) (mode s) (degrees s) (celsius s)
    (fanspeed s) (swingv s) (swingh s) (quiet s) v (econo s)
    (light s) (filter s) (clean s) (beep s) (sleep s) (clock s) (command s)
    (sensorTemperature s) (iFeel s).

Definition set_econo (v : bool) (s : state_t) : state_t :=
  mk_state (protocol s) (model s) (power s) (mode s) (degrees s) (celsius s)
    (fanspeed s) (swingv s) (swingh s) (quiet s) (turbo s) v
    (light s) (filter s) (clean s) (beep s) (sleep s) (clock s) (command s)
    (sensorTemperature s) (iFeel s).

Definition set_light (v : bool) (s : state_t) : state_t :=
  mk_state (protocol s) (model s) (power s) (mode s) (degrees s) (celsius s)
    (fanspeed s) (swingv s) (swingh s) (quiet s) (turbo s) (econo s)
    v (filter s) (clean s) (beep s) (sleep s) (clock s) (command s)
    (sensorTemperature s) (iFeel s).

Definition set_clean (v : bool) (s : state_t) : state_t :=
  mk_state (protocol s) (model s) (power s) (mode s) (degrees s) (celsius s)
    (fanspeed s) (swingv s) (swingh s) (quiet s) (turbo s) (econo s)
    (light s) (filter s) v (beep s) (sleep s) (clock s) (command s)
    (sensorTemperature s) (iFeel s).

Definition set_beep (v : bool) (s : state_t) : state_t :=
  mk_state (protocol s) (model s) (power s) (mode s) (degrees s) (celsius s)
    (fanspeed s) (swingv s) (swingh s) (quiet s) (turbo s) (econo s)
    (light s) (filter s) (clean s) v (sleep s) (clock s) (command s)
    (sensorTemperature s) (iFeel s).

Definition set_sleep (v : Z) (s : state_t) : state_t :=
  mk_state (protocol s) (model s) (power s) (mode s) (degrees s) (celsius s)
    (fanspeed s) (swingv s) (swingh s) (quiet s) (turbo s) (econo s)
    (light s) (filter s) (clean s) (beep s) v (clock s) (command s)
    (sensorTemperature s) (iFeel s).

Definition set_clock (v : Z) (s : state_t) : state_t :=
  mk_state (protocol s) (model s) (power s) (mode s) (degrees s) (celsius s)
    (fanspeed s) (swingv s) (swingh s) (quiet s) (turbo s) (econo s)
    (light s) (filter s) (clean s) (beep s) (sleep s) v (command s)
    (sensorTemperature s) (iFeel s).

(** ** The text table, [IRtext] *)

Module IRtext.

Local Open Scope string_scope.

(** Modelled from the spec: the string constants [kXxxStr] are defined in
    [IRtext] and the locale headers, which are not part of the sources at
    hand.  Each constant is the synonym of the spec's table (section 4.2)
    that its name spells; the comments of [strToSwingH] give the eight
    left/right strings.  Parsing ignores letter case, so the case chosen
    here is not observable through the parsers. *)
Definition kAutoStr := "auto".
Definition kAutomaticStr := "automatic".
Definition kOffStr := "off".
Definition kStopStr := "stop".
Definition kOnStr := "on".
Definition kCoolStr := "cool".
Definition kCoolingStr := "cooling".
Definition kHeatStr := "heat".
Definition kHeatingStr := "heating".
Definition kDryStr := "dry".
Definition kDryingStr := "drying".
Definition kDehumidifyStr := "dehumidify".
Definition kFanStr := "Fan".
Definition kFanOnlyStr := "fan-only".
Definition kFan_OnlyStr := "fan_only".
Definition kFanOnlyWithSpaceStr := "fan only".
Definition kFanOnlyNoSpaceStr := "fanonly".
Definition kMinStr := "min".
Definition kMinimumStr := "minimum".
Definition kLowestStr := "lowest".
Definition kLowStr := "low".
Definition kLoStr := "lo".
Definition kMedStr := "med".
Definition kMediumStr := "medium".
Definition kMidStr := "mid".
Definition kMedHighStr := "medhigh".
Definition kHighStr := "high".
Definition kHiStr := "hi".
Definition kMaxStr := "max".
Definition kMaximumStr := "maximum".
Definition kHighestStr := "highest".
Definition kSwingStr := "swing".
Definition kBottomStr := "bottom".
Definition kDownStr := "down".
Definition kMiddleStr := "middle".
Definition kCentreStr := "centre".
Definition kUpperMiddleStr := "uppermiddle".
Definition kTopStr := "top".
Definition kUpStr := "up".
Definition kLeftMaxNoSpaceStr := "LeftMax".
Definition kLeftMaxStr := "Left Max".
Definition kMaxLeftNoSpaceStr := "MaxLeft".
Definition kMaxLeftStr := "Max Left".
Definition kLeftStr := "left".
Definition kRightStr := "right".
Definition kRightMaxNoSpaceStr := "RightMax".
Definition kRightMaxStr := "Right Max".
Definition kMaxRightNoSpaceStr := "MaxRight".
Definition kMaxRightStr := "Max Right".
Definition kWideStr := "wide".
Definition k1Str := "1".
Definition kYesStr := "yes".
Definition kTrueStr := "true".
Definition k0Str := "0".
Definition kNoStr := "no".
Definition kFalseStr := "false".
Definition kControlCommandStr := "control".
Definition kIFeelReportStr := "ifeelreport".
Definition kIFeelStr := "ifeel".
Definition kSetTimerCommandStr := "settimercommand".
Definition kTimerStr := "timer".
Definition kConfigCommandStr := "config".
Definition kUnknownStr := "Unknown".

End IRtext.

Import IRtext.

(** ** [strcasecmp]

    The C library comparison behind the [STRCASECMP] macro: the difference
    of the first pair of bytes that differ once both are lower-cased, [0]
    when there is none.  Strings are those of C: no NUL inside. *)

Definition tolower (c : ascii) : ascii :=
  let n := N_of_ascii c in
  if (65 <=? n)%N && (n <=? 90)%N then ascii_of_N (n + 32) else c.

Definition uchar (c : ascii) : Z := Z.of_N (N_of_ascii c).

Fixpoint strcasecmp (lhs rhs : string) : Z :=
  match lhs, rhs with
  | EmptyString, EmptyString => 0
  | EmptyString, String c _ => 0 - uchar (tolower c)
  | String c _, EmptyString => uchar (tolower c)
  | String c1 lhs', String c2 rhs' =>
      let d := uchar (tolower c1) - uchar (tolower c2) in
      if d =? 0 then strcasecmp lhs' rhs' else d
  end.

Definition STRCASECMP (lhs rhs : string) : Z := strcasecmp lhs rhs.

(** C's [!x] on an [int]. *)
Definition lnot (x : Z) : bool := x =? 0.

(** ** String to enum and back *)

Definition strToCommandType (str : string) (def : ac_command_t.t)
  : ac_command_t.t :=
  if lnot (STRCASECMP str kControlCommandStr) then
    ac_command_t.kControlCommand
  else if lnot (STRCASECMP str kIFeelReportStr) ||
          lnot (STRCASECMP str kIFeelStr) then
    ac_command_t.kSensorTempReport
  else if lnot (STRCASECMP str kSetTimerCommandStr) ||
          lnot (STRCASECMP str kTimerStr) then
    ac_command_t.kTimerCommand
  else if lnot (STRCASECMP str kConfigCommandStr) then
    ac_command_t.kConfigCommand
  else def.

Definition strToOpmode (str : string) (def : opmode_t.t) : opmode_t.t :=
  if lnot (STRCASECMP str kAutoStr) ||
     lnot (STRCASECMP str kAutomaticStr) then
    opmode_t.kAuto
  else if lnot (STRCASECMP str kOffStr) ||
          lnot (STRCASECMP str kStopStr) then
    opmode_t.kOff
  else if lnot (STRCASECMP str kCoolStr) ||
          lnot (STRCASECMP str kCoolingStr) then
    opmode_t.kCool
  else if lnot (STRCASECMP str kHeatStr) ||
          lnot (STRCASECMP str kHeatingStr) then
    opmode_t.kHeat
  else if lnot (STRCASECMP str kDryStr) ||
          lnot (STRCASECMP str kDryingStr) ||
          lnot (STRCASECMP str kDehumidifyStr) then
    opmode_t.kDry
  else if lnot (STRCASECMP str kFanStr) ||
          lnot (STRCASECMP str kFanOnlyStr) ||
          lnot (STRCASECMP str kFan_OnlyStr) ||
          lnot (STRCASECMP str kFanOnlyWithSpaceStr) ||
          lnot (STRCASECMP str kFanOnlyNoSpaceStr) then
    opmode_t.kFan
  else def.

Definition strToFanspeed (str : string) (def : fanspeed_t.t)
  : fanspeed_t.t :=
  if lnot (STRCASECMP str kAutoStr) ||
     lnot (STRCASECMP str kAutomaticStr) then
    fanspeed_t.kAuto
  else if lnot (STRCASECMP str kMinStr) ||
          lnot (STRCASECMP str kMinimumStr) ||
          lnot (STRCASECMP str kLowestStr) then
    fanspeed_t.kMin
  else if lnot (STRCASECMP str kLowStr) ||
          lnot (STRCASECMP str kLoStr) then
    fanspeed_t.kLow
  else if lnot (STRCASECMP str kMedStr) ||
          lnot (STRCASECMP str kMediumStr) ||
          lnot (STRCASECMP str kMidStr) then
    fanspeed_t.kMedium
  else if lnot (STRCASECMP str kHighStr) ||
          lnot (STRCASECMP str kHiStr) then
    fanspeed_t.kHigh
  else if lnot (STRCASECMP str kMaxStr) ||
          lnot (STRCASECMP str kMaximumStr) ||
          lnot (STRCASECMP str kHighestStr) then
    fanspeed_t.kMax
  else if lnot (STRCASECMP str kMedHighStr) then
    fanspeed_t.kMediumHigh
  else def.

Definition strToSwingV (str : string) (def : swingv_t.t) : swingv_t.t :=
  if lnot (STRCASECMP str kAutoStr) ||
     lnot (STRCASECMP str kAutomaticStr) ||
     lnot (STRCASECMP str kOnStr) ||
     lnot (STRCASECMP str kSwingStr) then
    swingv_t.kAuto
  else if lnot (STRCASECMP str kOffStr) ||
          lnot (STRCASECMP str kStopStr) then
    swingv_t.kOff
  else if lnot (STRCASECMP str kMinStr) ||
          lnot (STRCASECMP str kMinimumStr) ||
          lnot (STRCASECMP str kLowestStr) ||
          lnot (STRCASECMP str kBottomStr) ||
          lnot (STRCASECMP str kDownStr) then
    swingv_t.kLowest
  else if lnot (STRCASECMP str kLowStr) then
    swingv_t.kLow
  else if lnot (STRCASECMP str kMidStr) ||
          lnot (STRCASECMP str kMiddleStr) ||
          lnot (STRCASECMP str kMedStr) ||
          lnot (STRCASECMP str kMediumStr) ||
          lnot (STRCASECMP str kCentreStr) then
    swingv_t.kMiddle
  else if lnot (STRCASECMP str kUpperMiddleStr) then
    swingv_t.kUpperMiddle
  else if lnot (STRCASECMP str kHighStr) ||
          lnot (STRCASECMP str kHiStr) then
    swingv_t.kHigh
  else if lnot (STRCASECMP str kHighestStr) ||
          lnot (STRCASECMP str kMaxStr) ||
          lnot (STRCASECMP str kMaximumStr) ||
          lnot (STRCASECMP str kTopStr) ||
          lnot (STRCASECMP str kUpStr) then
    swingv_t.kHighest
  else def.

Definition strToSwingH (str : string) (def : swingh_t.t) : swingh_t.t :=
  if lnot (STRCASECMP str kAutoStr) ||
     lnot (STRCASECMP str kAutomaticStr) ||
     lnot (STRCASECMP str kOnStr) || lnot (STRCASECMP str kSwingStr) then
    swingh_t.kAuto
  else if lnot (STRCASECMP str kOffStr) ||
          lnot (STRCASECMP str kStopStr) then
    swingh_t.kOff
  else if lnot (STRCASECMP str kLeftMaxNoSpaceStr) ||
          lnot (STRCASECMP str kLeftMaxStr) ||
          lnot (STRCASECMP str kMaxLeftNoSpaceStr) ||
          lnot (STRCASECMP str kMaxLeftStr) then
    swingh_t.kLeftMax
  else if lnot (STRCASECMP str kLeftStr) then
    swingh_t.kLeft
  else if lnot (STRCASECMP str kMidStr) ||
          lnot (STRCASECMP str kMiddleStr) ||
          lnot (STRCASECMP str kMedStr) ||
          lnot (STRCASECMP str kMediumStr) ||
          lnot (STRCASECMP str kCentreStr) then
    swingh_t.kMiddle
  else if lnot (STRCASECMP str kRightStr) then
    swingh_t.kRight
  else if lnot (STRCASECMP str kRightMaxNoSpaceStr) ||
          lnot (STRCASECMP str kRightMaxStr) ||
          lnot (STRCASECMP str kMaxRightNoSpaceStr) ||
          lnot (STRCASECMP str kMaxRightStr) then
    swingh_t.kRightMax
  else if lnot (STRCASECMP str kWideStr) then
    swingh_t.kWide
  else def.

Definition strToBool (str : string) (def : bool) : bool :=
  if lnot (STRCASECMP str kOnStr) ||
     lnot (STRCASECMP str k1Str) ||
     lnot (STRCASECMP str kYesStr) ||
     lnot (STRCASECMP str kTrueStr) then
    true
  else if lnot (STRCASECMP str kOffStr) ||
          lnot (STRCASECMP str k0Str) ||
          lnot (STRCASECMP str kNoStr) ||
          lnot (STRCASECMP str kFalseStr) then
    false
  else def.

(** The renderers.  Their [default: return kUnknownStr] arm answers integer
    values outside the enumeration; the inductive types have no such
    value, so the arm has no counterpart here. *)

Definition boolToString (value : bool) : string :=
  if value then kOnStr else kOffStr.

Definition commandTypeToString (cmdType : ac_command_t.t) : string :=
  match cmdType with
  | ac_command_t.kControlCommand => kControlCommandStr
  | ac_command_t.kSensorTempReport => kIFeelReportStr
  | ac_command_t.kTimerCommand => kSetTimerCommandStr
  | ac_command_t.kConfigCommand => kConfigCommandStr
  end.

Definition opmodeToString (mode : opmode_t.t) (ha : bool) : string :=
  match mode with
  | opmode_t.kOff => kOffStr
  | opmode_t.kAuto => kAutoStr
  | opmode_t.kCool => kCoolStr
  | opmode_t.kHeat => kHeatStr
  | opmode_t.kDry => kDryStr
  | opmode_t.kFan => if ha then kFan_OnlyStr else kFanStr
  end.

Definition fanspeedToString (speed : fanspeed_t.t) : string :=
  match speed with
  | fanspeed_t.kAuto => kAutoStr
  | fanspeed_t.kMax => kMaxStr
  | fanspeed_t.kHigh => kHighStr
  | fanspeed_t.kMedium => kMediumStr
  | fanspeed_t.kMediumHigh => kMedHighStr
  | fanspeed_t.kLow => kLowStr
  | fanspeed_t.kMin => kMinStr
  end.

Definition swingvToString (swingv : swingv_t.t) : string :=
  match swingv with
  | swingv_t.kOff => kOffStr
  | swingv_t.kAuto => kAutoStr
  | swingv_t.kHighest => kHighestStr
  | swingv_t.kHigh => kHighStr
  | swingv_t.kMiddle => kMiddleStr
  | swingv_t.kUpperMiddle => kUpperMiddleStr
  | swingv_t.kLow => kLowStr
  | swingv_t.kLowest => kLowestStr
  end.

Definition swinghToString (swingh : swingh_t.t) : string :=
  match swingh with
  | swingh_t.kOff => kOffStr
  | swingh_t.kAuto => kAutoStr
  | swingh_t.kLeftMax => kLeftMaxStr
  | swingh_t.kLeft => kLeftStr
  | swingh_t.kMiddle => kMiddleStr
  | swingh_t.kRight => kRightStr
  | swingh_t.kRightMax => kRightMaxStr
  | swingh_t.kWide => kWideStr
  end.

(** ** What the file takes from headers that are not at hand *)

(** The preprocessor switches that [IRac.cpp] tests.  They are set in
    [IRremoteESP8266.h] or on the compiler's command line. *)
Inductive macro : Type :=
| SEND_AIRTON | SEND_AIRWELL | SEND_AMCOR | SEND_ARGO | SEND_BOSCH144
| SEND_CARRIER_AC64 | SEND_COOLIX | SEND_CORONA_AC | SEND_DAIKIN
| SEND_DAIKIN128 | SEND_DAIKIN152 | SEND_DAIKIN160 | SEND_DAIKIN176
| SEND_DAIKIN2 | SEND_DAIKIN216 | SEND_DAIKIN64 | SEND_DELONGHI_AC
| SEND_ECOCLIM | SEND_ELECTRA_AC | SEND_FUJITSU_AC | SEND_GOODWEATHER
| SEND_GREE | SEND_HAIER_AC | SEND_HAIER_AC160 | SEND_HAIER_AC176
| SEND_HAIER_AC_YRW02 | SEND_HITACHI_AC | SEND_HITACHI_AC1
| SEND_HITACHI_AC264 | SEND_HITACHI_AC296 | SEND_HITACHI_AC344
| SEND_HITACHI_AC424 | SEND_KELON | SEND_KELVINATOR | SEND_LG | SEND_MIDEA
| SEND_MIRAGE | SEND_MITSUBISHI_AC | SEND_MITSUBISHI112
| SEND_MITSUBISHI136 | SEND_MITSUBISHIHEAVY | SEND_NEOCLIMA
| SEND_PANASONIC_AC | SEND_PANASONIC_AC32 | SEND_RHOSS | SEND_SAMSUNG_AC
| SEND_SANYO_AC | SEND_SANYO_AC88 | SEND_SHARP_AC | SEND_TCL112AC
| SEND_TECHNIBEL_AC | SEND_TECO | SEND_TEKNOPOINT | SEND_TOSHIBA_AC
| SEND_TRANSCOLD | SEND_TROTEC | SEND_TROTEC_3550 | SEND_TRUMA
| SEND_VESTEL_AC | SEND_VOLTAS | SEND_YORK | SEND_WHIRLPOOL_AC
| DECODE_LG | DECODE_RHOSS.

(** A build: which switches are on. *)
Definition build_config : Type := macro -> bool.

(** Every switch on. *)
Definition build_all : build_config := fun _ => true.

(** Only the two drivers whose headers [IRac.cpp] includes. *)
Definition build_light : build_config :=
  fun m =>
    match m with
    | SEND_LG | SEND_RHOSS | DECODE_LG | DECODE_RHOSS => true
    | _ => false
    end.

(** Model codes of [IRsend.h] that [IRac.cpp] compares a state's [model]
    with. *)
Class ModelCodes : Type := {
  KKG29AC1 : Z;       (* mirage_ac_remote_model_t::KKG29AC1 *)
  kPanasonicCkp : Z;  (* panasonic_ac_remote_model_t::kPanasonicCkp *)
  LG6711A20083V : Z   (* lg_ac_remote_model_t::LG6711A20083V *)
}.

(** The part of [IRLgAc] ([ir_LG.h]) that the dispatcher and the renderer
    of decoded frames rely on.  [lg_isValidLgAc v p] and [lg_toString v p]
    are [isValidLgAc()] and [toString()] of a driver after
    [setRaw(v, p)]. *)
Class IRLgAc : Type := {
  lg_convertMode : opmode_t.t -> Z;
  lg_convertFan : fanspeed_t.t -> Z;
  lg_convertSwingV : swingv_t.t -> Z;
  lg_convertVaneSwingV : swingv_t.t -> Z;
  kLgAcSwingVMaxVanes : nat;
  kLgAcSwingVToggle : Z;
  lg_isValidLgAc : Z -> decode_type_t -> bool;
  lg_toString : Z -> decode_type_t -> string
}.

(** The part of [IRRhossAc] ([ir_Rhoss.h]) that the dispatcher and the
    renderer rely on.  [rhoss_toString st] is [toString()] of a driver
    after [setRaw(st)]. *)
Class IRRhossAc : Type := {
  rhoss_convertMode : opmode_t.t -> Z;
  rhoss_convertFan : fanspeed_t.t -> Z;
  rhoss_toString : list Z -> string
}.

(** Modelled from the spec: the frame validation that the vendor driver
    contract (section 6, "isValid...()") gives every decoder, for the Rhoss
    driver.  [ir_Rhoss.h] is not part of the sources at hand, and
    [IRac.cpp] calls no validation on an [IRRhossAc]. *)
Class IRRhossAc_validation : Type := {
  rhoss_isValid : list Z -> bool
}.

(** The method calls the dispatcher makes on a driver object. *)
Inductive IRLgAc_call : Type :=
| LgBegin
| LgSetModel (model : Z)
| LgSetPower (on : bool)
| LgSetMode (mode : Z)
| LgSetTemp (degrees : float)
| LgSetFan (speed : Z)
| LgSetSwingV (position : Z)
| LgUpdateSwingPrev
| LgSetVaneSwingV (vane : Z) (position : Z)
| LgSetSwingH (on : bool)
| LgSetLight (on : bool)
| LgSend.

Inductive IRRhossAc_call : Type :=
| RhossBegin
| RhossSetPower (on : bool)
| RhossSetMode (mode : Z)
| RhossSetSwing (on : bool)
| RhossSetTemp (degrees : float)
| RhossSetFan (speed : Z)
| RhossSend.

(** A driver object built on (pin, inverted, modulation) and what was
    called on it. *)
Inductive driver_use : Type :=
| UseIRLgAc (pin : Z) (inverted modulation : bool) (calls : list IRLgAc_call)
| UseIRRhossAc (pin : Z) (inverted modulation : bool)
    (calls : list IRRhossAc_call).

(** ** The class [IRac] *)

Record IRac : Type := mk_IRac {
  _pin : Z;
  _inverted : bool;
  _modulation : bool;
  next : state_t;
  _prev : state_t
}.

Definition initState (state : state_t)
  (vendor : decode_type_t) (model : Z) (power : bool) (mode : opmode_t.t)
  (degrees : float) (celsius : bool) (fan : fanspeed_t.t)
  (swingv : swingv_t.t) (swingh : swingh_t.t)
  (quiet turbo econo light filter clean beep : bool)
  (sleep clock : Z) : state_t :=
  mk_state vendor model power mode degrees celsius fan swingv swingh quiet
    turbo econo light filter clean beep sleep clock
    (command state) (sensorTemperature state) (iFeel state).

Definition getState (self : IRac) : state_t := next self.

Definition getStatePrev (self : IRac) : state_t := _prev self.

Definition cleanState (state : state_t) : state_t :=
  let result := state in
  if opmode_t.eqb (mode state) opmode_t.kOff
  then set_power false result
  else result.

(** The block that [handleToggles] repeats for COOLIX/TRANSCOLD, for
    MIDEA/CORONA_AC/HITACHI_AC344/HITACHI_AC424, for SHARP_AC and for
    KELON. *)
Definition toggle_swingv (desired prev result : state_t) : state_t :=
  if xorb (swingv_t.eqb (swingv desired) swingv_t.kOff)
          (swingv_t.eqb (swingv prev) swingv_t.kOff)
  then set_swingv swingv_t.kAuto result
  else set_swingv swingv_t.kOff result.

Section Toggles.

Context {codes : ModelCodes}.

Definition handleToggles (desired : state_t) (prev : option state_t)
  : state_t :=
  let result := desired in
  match prev with
  | None => result
  | Some prev =>
    if decode_type_eqb (protocol desired) (protocol prev) &&
       (model desired =? model prev)
    then
      match protocol desired with
      | COOLIX | TRANSCOLD =>
          let result := toggle_swingv desired prev result in
          let result := set_turbo (xorb (turbo desired) (turbo prev)) result in
          let result := set_light (xorb (light desired) (light prev)) result in
          let result := set_clean (xorb (clean desired) (clean prev)) result in
          set_sleep
            (if xorb (sleep desired >=? 0) (sleep prev >=? 0) then 0 else -1)
            result
      | DAIKIN128 =>
          let result := set_power (xorb (power desired) (power prev)) result in
          set_light (xorb (light desired) (light prev)) result
      | ELECTRA_AC =>
          set_light (xorb (light desired) (light prev)) result
      | FUJITSU_AC =>
          let result := set_turbo (xorb (turbo desired) (turbo prev)) result in
          set_econo (xorb (econo desired) (econo prev)) result
      | MIDEA =>
          let result := set_turbo (xorb (turbo desired) (turbo prev)) result in
          let result := set_econo (xorb (econo desired) (econo prev)) result in
          let result := set_light (xorb (light desired) (light prev)) result in
          let result := set_clean (xorb (clean desired) (clean prev)) result in
          (* falls through *)
          toggle_swingv desired prev result
      | CORONA_AC | HITACHI_AC344 | HITACHI_AC424 =>
          toggle_swingv desired prev result
      | SHARP_AC =>
          let result := set_light (xorb (light desired) (light prev)) result in
          toggle_swingv desired prev result
      | KELON =>
          let result := toggle_swingv desired prev result in
          (* falls through *)
          set_power (xorb (power desired) (power prev)) result
      | AIRWELL | DAIKIN64 | PANASONIC_AC32 | WHIRLPOOL_AC =>
          set_power (xorb (power desired) (power prev)) result
      | MIRAGE =>
          let result :=
            if model desired =? KKG29AC1
            then set_light (xorb (light desired) (light prev)) result
            else result in
          set_clean (xorb (clean desired) (clean prev)) result
      | PANASONIC_AC =>
          if model desired =? kPanasonicCkp
          then set_power (xorb (power desired) (power prev)) result
          else result
      | SAMSUNG_AC =>
          let result := set_beep (xorb (beep desired) (beep prev)) result in
          set_clean (xorb (clean desired) (clean prev)) result
      | _ => result
      end
    else result
  end.

End Toggles.

Section Dispatcher.

Variable cfg : build_config.
Context {codes : ModelCodes} {lgac : IRLgAc} {rhossac : IRRhossAc}.

Definition isProtocolSupported (protocol : decode_type_t) : bool :=
  match protocol with
  | AIRTON => cfg SEND_AIRTON
  | AIRWELL => cfg SEND_AIRWELL
  | AMCOR => cfg SEND_AMCOR
  | ARGO => cfg SEND_ARGO
  | BOSCH144 => cfg SEND_BOSCH144
  | CARRIER_AC64 => cfg SEND_CARRIER_AC64
  | COOLIX => cfg SEND_COOLIX
  | CORONA_AC => cfg SEND_CORONA_AC
  | DAIKIN => cfg SEND_DAIKIN
  | DAIKIN128 => cfg SEND_DAIKIN128
  | DAIKIN152 => cfg SEND_DAIKIN152
  | DAIKIN160 => cfg SEND_DAIKIN160
  | DAIKIN176 => cfg SEND_DAIKIN176
  | DAIKIN2 => cfg SEND_DAIKIN2
  | DAIKIN216 => cfg SEND_DAIKIN216
  | DAIKIN64 => cfg SEND_DAIKIN64
  | DELONGHI_AC => cfg SEND_DELONGHI_AC
  | ECOCLIM => cfg SEND_ECOCLIM
  | ELECTRA_AC => cfg SEND_ELECTRA_AC
  | FUJITSU_AC => cfg SEND_FUJITSU_AC
  | GOODWEATHER => cfg SEND_GOODWEATHER
  | GREE => cfg SEND_GREE
  | HAIER_AC => cfg SEND_HAIER_AC
  | HAIER_AC160 => cfg SEND_HAIER_AC160
  | HAIER_AC176 => cfg SEND_HAIER_AC176
  | HAIER_AC_YRW02 => cfg SEND_HAIER_AC_YRW02
  | HITACHI_AC => cfg SEND_HITACHI_AC
  | HITACHI_AC1 => cfg SEND_HITACHI_AC1
  | HITACHI_AC264 => cfg SEND_HITACHI_AC264
  | HITACHI_AC296 => cfg SEND_HITACHI_AC296
  | HITACHI_AC344 => cfg SEND_HITACHI_AC344
  | HITACHI_AC424 => cfg SEND_HITACHI_AC424
  | KELON => cfg SEND_KELON
  | KELVINATOR => cfg SEND_KELVINATOR
  | LG | LG2 => cfg SEND_LG
  | MIDEA => cfg SEND_MIDEA
  | MIRAGE => cfg SEND_MIRAGE
  | MITSUBISHI_AC => cfg SEND_MITSUBISHI_AC
  | MITSUBISHI112 => cfg SEND_MITSUBISHI112
  | MITSUBISHI136 => cfg SEND_MITSUBISHI136
  | MITSUBISHI_HEAVY_88 | MITSUBISHI_HEAVY_152 => cfg SEND_MITSUBISHIHEAVY
  | NEOCLIMA => cfg SEND_NEOCLIMA
  | PANASONIC_AC => cfg SEND_PANASONIC_AC
  | PANASONIC_AC32 => cfg SEND_PANASONIC_AC32
  | RHOSS => cfg SEND_RHOSS
  | SAMSUNG_AC => cfg SEND_SAMSUNG_AC
  | SANYO_AC => cfg SEND_SANYO_AC
  | SANYO_AC88 => cfg SEND_SANYO_AC88
  | SHARP_AC => cfg SEND_SHARP_AC
  | TCL112AC => cfg SEND_TCL112AC
  | TECHNIBEL_AC => cfg SEND_TECHNIBEL_AC
  | TECO => cfg SEND_TECO
  | TEKNOPOINT => cfg SEND_TEKNOPOINT
  | TOSHIBA_AC => cfg SEND_TOSHIBA_AC
  | TRANSCOLD => cfg SEND_TRANSCOLD
  | TROTEC => cfg SEND_TROTEC
  | TROTEC_3550 => cfg SEND_TROTEC_3550
  | TRUMA => cfg SEND_TRUMA
  | VESTEL_AC => cfg SEND_VESTEL_AC
  | VOLTAS => cfg SEND_VOLTAS
  | YORK => cfg SEND_YORK
  | WHIRLPOOL_AC => cfg SEND_WHIRLPOOL_AC
  | _ => false
  end.

(** [IRac::lg]: the calls made on the driver, in order. *)
Definition lg (model : Z) (on : bool) (mode : opmode_t.t) (degrees : float)
  (fan : fanspeed_t.t) (swingv swingv_prev : swingv_t.t)
  (swingh : swingh_t.t) (light : bool) : list IRLgAc_call :=
  let pos := lg_convertVaneSwingV swingv in
  [ LgBegin;
    LgSetModel model;
    LgSetPower on;
    LgSetMode (lg_convertMode mode);
    LgSetTemp degrees;
    LgSetFan (lg_convertFan fan);
    LgSetSwingV (lg_convertSwingV swingv_prev);
    LgUpdateSwingPrev;
    LgSetSwingV (lg_convertSwingV swingv) ]
  ++ map (fun vane => LgSetVaneSwingV (Z.of_nat vane) pos)
         (seq 0 kLgAcSwingVMaxVanes)
  ++ (if (model =? LG6711A20083V) &&
         negb (Bool.eqb (swingv_t.eqb swingv swingv_t.kOff)
                        (swingv_t.eqb swingv_prev swingv_t.kOff))
      then [LgSetSwingV kLgAcSwingVToggle] else [])
  ++ [ LgSetSwingH (negb (swingh_t.eqb swingh swingh_t.kOff));
       LgSetLight light;
       LgSend ].

(** [IRac::rhoss]: the calls made on the driver, in order. *)
Definition rhoss (on : bool) (mode : opmode_t.t) (degrees : float)
  (fan : fanspeed_t.t) (swing : swingv_t.t) : list IRRhossAc_call :=
  [ RhossBegin;
    RhossSetPower on;
    RhossSetMode (rhoss_convertMode mode);
    RhossSetSwing (negb (swingv_t.eqb swing swingv_t.kOff));
    RhossSetTemp degrees;
    RhossSetFan (rhoss_convertFan fan);
    RhossSend ].

(** The two temperatures that the structured [sendAc] computes first. *)
Definition sendAc_degC (desired : state_t) : float :=
  if celsius desired then degrees desired
  else fahrenheitToCelsius (degrees desired).

Definition sendAc_sensorTempC (desired : state_t) : float :=
  if float_truthy (sensorTemperature desired)
  then sensorTemperature desired
  else fahrenheitToCelsius (sensorTemperature desired).

(** The state that the structured [sendAc] dispatches on, its local
    [send]. *)
Definition sendAc_send (desired : state_t) (prev : option state_t)
  : state_t :=
  handleToggles (cleanState desired) prev.

(** [IRac::sendAc(desired, prev)]: the result and the driver it used, if
    any.  Of the pointer-safe views of the previous state, the two arms of
    this file read [prev_swingv] only. *)
Definition sendAc (self : IRac) (desired : state_t) (prev : option state_t)
  : bool * option driver_use :=
  let degC := sendAc_degC desired in
  let sensorTempC := sendAc_sensorTempC desired in
  let send := sendAc_send desired prev in
  let prev_power :=
    match prev with
    | Some prev => power prev
    | None => negb (power send)
    end in
  let prev_sleep :=
    match prev with
    | Some prev => sleep prev
    | None => -1
    end in
  let prev_swingv :=
    match prev with
    | Some prev => swingv prev
    | None => swingv_t.kOff
    end in
  let prev_light :=
    match prev with
    | Some prev => light prev
    | None => negb (light send)
    end in
  let prev_quiet :=
    match prev with
    | Some prev => quiet prev
    | None => negb (quiet send)
    end in
  match protocol send with
  | LG | LG2 =>
      if cfg SEND_LG then
        (true,
         Some (UseIRLgAc (_pin self) (_inverted self) (_modulation self)
                 (lg (model send) (power send) (mode send) (degrees send)
                     (fanspeed send) (swingv send) prev_swingv
                     (swingh send) (light send))))
      else (false, None)
  | RHOSS =>
      if cfg SEND_RHOSS then
        (true,
         Some (UseIRRhossAc (_pin self) (_inverted self) (_modulation self)
                 (rhoss (power send) (mode send) degC (fanspeed send)
                        (swingv send))))
      else (false, None)
  | _ => (false, None)
  end.

(** [IRac::sendAc(vendor, model, power, ...)], the flat overload. *)
Definition sendAc_flat (self : IRac)
  (vendor : decode_type_t) (model : Z) (power : bool) (mode : opmode_t.t)
  (degrees : float) (celsius : bool) (fan : fanspeed_t.t)
  (swingv : swingv_t.t) (swingh : swingh_t.t)
  (quiet turbo econo light filter clean beep : bool)
  (sleep clock : Z) : bool * option driver_use :=
  let to_send :=
    initState state_default vendor model power mode degrees celsius fan
      swingv swingh quiet turbo econo light filter clean beep sleep clock in
  sendAc self to_send (Some to_send).

Definition markAsSent (self : IRac) : IRac :=
  mk_IRac (_pin self) (_inverted self) (_modulation self)
    (next self) (next self).

(** [IRac::sendAc(void)]: the result, the object afterwards and the driver
    used. *)
Definition sendAc_void (self : IRac) : bool * IRac * option driver_use :=
  let '(success, used) := sendAc self (next self) (Some (_prev self)) in
  let self := if success then markAsSent self else self in
  (success, self, used).

End Dispatcher.

(** The constructor: [next] and [_prev] start as the default state. *)
Definition IRac_new (pin : Z) (inverted use_modulation : bool) : IRac :=
  markAsSent (mk_IRac pin inverted use_modulation state_default state_default).

Definition cmpStates (a b : state_t) : bool :=
  negb (decode_type_eqb (protocol a) (protocol b)) ||
  negb (model a =? model b) ||
  negb (Bool.eqb (power a) (power b)) ||
  negb (opmode_t.eqb (mode a) (mode b)) ||
  negb (float_eqb (degrees a) (degrees b)) ||
  negb (Bool.eqb (celsius a) (celsius b)) ||
  negb (fanspeed_t.eqb (fanspeed a) (fanspeed b)) ||
  negb (swingv_t.eqb (swingv a) (swingv b)) ||
  negb (swingh_t.eqb (swingh a) (swingh b)) ||
  negb (Bool.eqb (quiet a) (quiet b)) ||
  negb (Bool.eqb (turbo a) (turbo b)) ||
  negb (Bool.eqb (econo a) (econo b)) ||
  negb (Bool.eqb (light a) (light b)) ||
  negb (Bool.eqb (filter a) (filter b)) ||
  negb (Bool.eqb (clean a) (clean b)) ||
  negb (Bool.eqb (beep a) (beep b)) ||
  negb (sleep a =? sleep b) ||
  negb (ac_command_t.eqb (command a) (command b)) ||
  negb (float_eqb (sensorTemperature a) (sensorTemperature b)) ||
  negb (Bool.eqb (iFeel a) (iFeel b)).

Definition hasStateChanged (self : IRac) : bool :=
  cmpStates (next self) (_prev self).

(** "One of the two temperatures of the state is NaN." *)
Definition has_nan (s : state_t) : bool :=
  float_isnan (degrees s) || float_isnan (sensorTemperature s).

(** ** Namespace [IRAcUtils] *)

(** The fields of [decode_results] that [IRac.cpp] reads. *)
Record decode_results : Type := mk_decode_results {
  decode_type : decode_type_t;
  value : Z;
  state : list Z
}.

(** [toCommon] of the two drivers ([ir_LG.h], [ir_Rhoss.h]):
    [lg_toCommon v p prev] is [toCommon(prev)] of an [IRLgAc] after
    [setRaw(v, p)], [rhoss_toCommon st] is [toCommon()] of an [IRRhossAc]
    after [setRaw(st)]. *)
Class IRLgAc_toCommon : Type := {
  lg_toCommon : Z -> decode_type_t -> option state_t -> state_t
}.

Class IRRhossAc_toCommon : Type := {
  rhoss_toCommon : list Z -> state_t
}.

Module IRAcUtils.

Section Decoded.

Variable cfg : build_config.
Context {lgac : IRLgAc} {rhossac : IRRhossAc}.

Definition resultAcToString (result : decode_results) : string :=
  match decode_type result with
  | LG | LG2 =>
      if cfg DECODE_LG then
        if lg_isValidLgAc (value result) (decode_type result)
        then lg_toString (value result) (decode_type result)
        else EmptyString
      else EmptyString
  | RHOSS =>
      if cfg DECODE_RHOSS then rhoss_toString (state result)
      else EmptyString
  | _ => EmptyString
  end.

End Decoded.

Section DecodedState.

Variable cfg : build_config.
Context {lgac : IRLgAc} {lgcommon : IRLgAc_toCommon}
        {rhosscommon : IRRhossAc_toCommon}.

(** [decodeToState(decode, result, prev)].  [decode] and [prev] are [None]
    for a null pointer; [result] is the state that the pointer leads to,
    [None] for a null pointer.  The answer is the boolean and the state
    behind [result] afterwards. *)
Definition decodeToState (decode : option decode_results)
  (result : option state_t) (prev : option state_t)
  : bool * option state_t :=
  match decode, result with
  | Some decode, Some result =>
      match decode_type decode with
      | LG | LG2 =>
          if cfg DECODE_LG then
            if negb (lg_isValidLgAc (value decode) (decode_type decode))
            then (false, Some result)
            else (true,
                  Some (lg_toCommon (value decode) (decode_type decode)
                          prev))
          else (false, Some result)
      | RHOSS =>
          if cfg DECODE_RHOSS
          then (true, Some (rhoss_toCommon (state decode)))
          else (false, Some result)
      | _ => (false, Some result)
      end
  | _, _ => (false, result)
  end.

End DecodedState.

End IRAcUtils.

(** ** The specification's side *)

(** The boolean features of a common state. *)
Inductive bool_field : Type :=
| Fpower | Fquiet | Fturbo | Fecono | Flight | Ffilter | Fclean | Fbeep.

Definition get_field (f : bool_field) (s : state_t) : bool :=
  match f with
  | Fpower => power s
  | Fquiet => quiet s
  | Fturbo => turbo s
  | Fecono => econo s
  | Flight => light s
  | Ffilter => filter s
  | Fclean => clean s
  | Fbeep => beep s
  end.

(** The rewrite table of the toggle resolver as the specification words it
    (section 4.4): for a protocol and a model, the boolean fields that are
    sent as toggles. *)
Definition spec_toggle_fields {codes : ModelCodes}
  (p : decode_type_t) (model : Z) : list bool_field :=
  match p with
  | COOLIX | TRANSCOLD => [Fturbo; Flight; Fclean]
  | DAIKIN128 => [Fpower; Flight]
  | ELECTRA_AC => [Flight]
  | FUJITSU_AC => [Fturbo; Fecono]
  | MIDEA => [Fturbo; Fecono; Flight; Fclean]
  | SHARP_AC => [Flight]
  | AIRWELL | DAIKIN64 | PANASONIC_AC32 | WHIRLPOOL_AC | KELON => [Fpower]
  | MIRAGE => (if model =? KKG29AC1 then [Flight] else []) ++ [Fclean]
  | PANASONIC_AC => if model =? kPanasonicCkp then [Fpower] else []
  | SAMSUNG_AC => [Fbeep; Fclean]
  | _ => []
  end.

(** The protocols that the same table gives the [swingv] rule. *)
Definition spec_swingv_protocols : list decode_type_t :=
  [COOLIX; TRANSCOLD; MIDEA; CORONA_AC; HITACHI_AC344; HITACHI_AC424;
   SHARP_AC; KELON].

(** The protocols that the table gives the [sleep] rule. *)
Definition spec_sleep_protocols : list decode_type_t := [COOLIX; TRANSCOLD].

(** "The decoder for this protocol is compiled in." *)
Definition decoder_enabled (cfg : build_config) (p : decode_type_t) : bool :=
  match p with
  | LG | LG2 => cfg DECODE_LG
  | RHOSS => cfg DECODE_RHOSS
  | _ => false
  end.

(** "The driver reports the frame valid." *)
Definition frame_valid {lgac : IRLgAc} {rhossval : IRRhossAc_validation}
  (r : decode_results) : bool :=
  match decode_type r with
  | LG | LG2 => lg_isValidLgAc (value r) (decode_type r)
  | RHOSS => rhoss_isValid (state r)
  | _ => false
  end.

(** "The driver's human-readable rendering." *)
Definition driver_rendering {lgac : IRLgAc} {rhossac : IRRhossAc}
  (r : decode_results) : string :=
  match decode_type r with
  | LG | LG2 => lg_toString (value r) (decode_type r)
  | RHOSS => rhoss_toString (state r)
  | _ => EmptyString
  end.

(** [resultAcToString] as the specification words it (section 4.6): the
    rendering of a valid frame of a supported protocol, the empty string
    on unsupported or invalid. *)
Definition spec_resultAcToString (cfg : build_config)
  {lgac : IRLgAc} {rhossac : IRRhossAc} {rhossval : IRRhossAc_validation}
  (r : decode_results) : string :=
  if decoder_enabled cfg (decode_type r) && frame_valid r
  then driver_rendering r
  else EmptyString.

(** "The temperature values handed to the vendor driver": the arguments of
    the [setTemp] calls made on it. *)
Definition temps_handed (used : option driver_use) : list float :=
  match used with
  | Some (UseIRLgAc _ _ _ calls) =>
      flat_map (fun c => match c with LgSetTemp t => [t] | _ => [] end) calls
  | Some (UseIRRhossAc _ _ _ calls) =>
      flat_map (fun c => match c with RhossSetTemp t => [t] | _ => [] end)
        calls
  | None => []
  end.

(** The unit conversion the specification asks for (section 4.3): Celsius
    values pass, Fahrenheit values are converted. *)
Definition spec_toCelsius (desired : state_t) (t : float) : float :=
  if celsius desired then t else fahrenheitToCelsius t.

(** ** Concrete collaborators and inputs for the examples *)

(** The model codes, numbered as the enumerations list them. *)
Definition codes_sample : ModelCodes :=
  {| KKG29AC1 := 2; kPanasonicCkp := 5; LG6711A20083V := 5 |}.

(** A stand-in LG driver: conversions by position in the enumeration, six
    vanes, frames valid when their value is not zero. *)
Definition lg_sample : IRLgAc :=
  {| lg_convertMode := fun m =>
       match m with
       | opmode_t.kCool => 0 | opmode_t.kDry => 1 | opmode_t.kFan => 2
       | opmode_t.kHeat => 4 | _ => 3
       end;
     lg_convertFan := fun f =>
       match f with
       | fanspeed_t.kMin => 0 | fanspeed_t.kLow => 1
       | fanspeed_t.kMedium => 2 | fanspeed_t.kHigh => 10
       | fanspeed_t.kMax => 10 | _ => 5
       end;
     lg_convertSwingV := fun s =>
       match s with
       | swingv_t.kOff => 1 | _ => 0
       end;
     lg_convertVaneSwingV := fun s =>
       match s with
       | swingv_t.kOff => 0 | swingv_t.kAuto => 7 | _ => 3
       end;
     kLgAcSwingVMaxVanes := 6;
     kLgAcSwingVToggle := 8813847;
     lg_isValidLgAc := fun v _ => negb (v =? 0);
     lg_toString := fun _ _ => "Model: 1, Power: On"%string |}.

(** A stand-in Rhoss driver; its frames are valid when they have twelve
    bytes. *)
Definition rhoss_sample : IRRhossAc :=
  {| rhoss_convertMode := fun m =>
       match m with
       | opmode_t.kHeat => 1 | opmode_t.kCool => 2 | opmode_t.kDry => 3
       | opmode_t.kFan => 4 | _ => 5
       end;
     rhoss_convertFan := fun f =>
       match f with
       | fanspeed_t.kMin => 1 | fanspeed_t.kLow => 1
       | fanspeed_t.kMedium => 2 | fanspeed_t.kHigh => 3
       | fanspeed_t.kMax => 3 | _ => 0
       end;
     rhoss_toString := fun _ => "Power: On, Mode: 2 (Cool)"%string |}.

Definition rhoss_validation_sample : IRRhossAc_validation :=
  {| rhoss_isValid := fun st => (List.length st =? 12)%nat |}.

Definition irac_sample : IRac := IRac_new 4 false true.

(** A COOLIX state with turbo on, and the same with turbo off. *)
Definition coolix_turbo_on : state_t :=
  initState state_default COOLIX 1 true opmode_t.kCool (float_of_Z 24) true
    fanspeed_t.kAuto swingv_t.kAuto swingh_t.kOff
    false true false false false false false (-1) (-1).

Definition coolix_turbo_off : state_t := set_turbo false coolix_turbo_on.

(** An LG state that asks for mode off with power on. *)
Definition lg_mode_off_power_on : state_t :=
  initState state_default LG 1 true opmode_t.kOff (float_of_Z 22) true
    fanspeed_t.kHigh swingv_t.kOff swingh_t.kOff
    false false false true false false false (-1) (-1).

(** 72 degrees Fahrenheit for RHOSS and for LG, room sensor at 77. *)
Definition fahrenheit_72 (vendor : decode_type_t) : state_t :=
  mk_state vendor 1 true opmode_t.kCool (float_of_Z 72) false
    fanspeed_t.kAuto swingv_t.kOff swingh_t.kOff
    false false false false false false false (-1) (-1)
    ac_command_t.kControlCommand (float_of_Z 77) false.

(** A COOLIX call of the flat [sendAc] with every feature asked for. *)
Definition coolix_everything_on : state_t :=
  initState state_default COOLIX 1 true opmode_t.kCool (float_of_Z 24) true
    fanspeed_t.kAuto swingv_t.kAuto swingh_t.kOff
    false true false true false true false 30 (-1).

(** A dispatcher whose [next] asks an LG unit for mode off with power on. *)
Definition irac_lg_mode_off : IRac :=
  mk_IRac 4 false true lg_mode_off_power_on state_default.

(** An LG6711A20083V unit going from swing off to swing high. *)
Definition lg_swing_high : state_t :=
  initState state_default LG 5 true opmode_t.kCool (float_of_Z 22) true
    fanspeed_t.kHigh swingv_t.kHigh swingh_t.kOff
    false false false true false false false (-1) (-1).

(** A Rhoss frame of three bytes. *)
Definition rhoss_short_frame : decode_results :=
  mk_decode_results RHOSS 0 [170; 0; 0].

(** ** Further parts of [IRac.cpp] *)

(** *** [strToModel] *)

(** The C library's [atoi]: white space is skipped, a sign is read, the
    decimal digits that follow are accumulated.  The value is kept exact;
    the C function is undefined beyond the range of [int]. *)
Definition isspace (c : ascii) : bool :=
  let n := N_of_ascii c in
  (n =? 32)%N || ((9 <=? n)%N && (n <=? 13)%N).

Definition isdigit (c : ascii) : bool :=
  let n := N_of_ascii c in
  (48 <=? n)%N && (n <=? 57)%N.

Fixpoint atoi_digits (s : string) (acc : Z) : Z :=
  match s with
  | EmptyString => acc
  | String c s' =>
      if isdigit c then atoi_digits s' (10 * acc + (uchar c - 48)) else acc
  end.

Definition atoi_signed (s : string) : Z :=
  match s with
  | EmptyString => 0
  | String c s' =>
      if Ascii.eqb c "-" then - atoi_digits s' 0
      else if Ascii.eqb c "+" then atoi_digits s' 0
      else atoi_digits s 0
  end.

Fixpoint atoi (s : string) : Z :=
  match s with
  | EmptyString => 0
  | String c s' => if isspace c then atoi s' else atoi_signed s
  end.

(** The conversion of an [int] to [int16_t]: modulo 2^16. *)
Definition to_int16 (z : Z) : Z := (z + 32768) mod 65536 - 32768.

(** The model codes of [IRsend.h] and the model names of [IRtext] that
    [strToModel] mentions, besides the two codes of [ModelCodes]. *)
Class ModelTable : Type := {
  (* gree_ac_remote_model_t *)
  YAW1F : Z; YBOFB : Z; YX1FSF : Z;
  (* haier_ac176_remote_model_t *)
  V9014557_A : Z; V9014557_B : Z;
  (* hitachi_ac1_remote_model_t *)
  R_LT0541_HTA_A : Z; R_LT0541_HTA_B : Z;
  (* fujitsu_ac_remote_model_t *)
  ARRAH2E : Z; ARDB1 : Z; ARREB1E : Z; ARJW2 : Z; ARRY4 : Z; ARREW4E : Z;
  (* lg_ac_remote_model_t *)
  GE6711AR2853M : Z; AKB75215403 : Z; AKB74955603 : Z; AKB73757604 : Z;
  (* panasonic_ac_remote_model_t *)
  kPanasonicLke : Z; kPanasonicNke : Z; kPanasonicDke : Z;
  kPanasonicJke : Z; kPanasonicRkr : Z;
  (* sharp_ac_remote_model_t *)
  A907 : Z; A705 : Z; A903 : Z;
  (* tcl_ac_remote_model_t *)
  TAC09CHSD : Z; GZ055BE1 : Z;
  (* voltas_ac_remote_model_t *)
  kVoltas122LZF : Z;
  (* whirlpool_ac_remote_model_t *)
  DG11J13A : Z; DG11J191 : Z;
  (* argo_ac_remote_model_t *)
  SAC_WREM2 : Z; SAC_WREM3 : Z;
  (* the names *)
  kYaw1fStr : string; kYbofbStr : string; kYx1fsfStr : string;
  kV9014557AStr : string; kV9014557BStr : string;
  kRlt0541htaaStr : string; kRlt0541htabStr : string;
  kArrah2eStr : string; kArdb1Str : string; kArreb1eStr : string;
  kArjw2Str : string; kArry4Str : string; kArrew4eStr : string;
  kGe6711ar2853mStr : string; kAkb75215403Str : string;
  kAkb74955603Str : string; kAkb73757604Str : string;
  kLg6711a20083vStr : string;
  kLkeStr : string; kPanasonicLkeStr : string;
  kNkeStr : string; kPanasonicNkeStr : string;
  kDkeStr : string; kPanasonicDkeStr : string;
  kPkrStr : string; kPanasonicPkrStr : string;
  kJkeStr : string; kPanasonicJkeStr : string;
  kCkpStr : string; kPanasonicCkpStr : string;
  kRkrStr : string; kPanasonicRkrStr : string;
  kA907Str : string; kA705Str : string; kA903Str : string;
  kTac09chsdStr : string; kGz055be1Str : string;
  k122lzfStr : string;
  kDg11j13aStr : string; kDg11j104Str : string; kDg11j191Str : string;
  kArgoWrem2Str : string; kArgoWrem3Str : string
}.

Section Models.

Context {codes : ModelCodes} {table : ModelTable}.

Definition strToModel (str : string) (def : Z) : Z :=
  (* Gree *)
  if lnot (STRCASECMP str kYaw1fStr) then YAW1F
  else if lnot (STRCASECMP str kYbofbStr) then YBOFB
  else if lnot (STRCASECMP str kYx1fsfStr) then YX1FSF
  (* Haier *)
  else if lnot (STRCASECMP str kV9014557AStr) then V9014557_A
  else if lnot (STRCASECMP str kV9014557BStr) then V9014557_B
  (* HitachiAc1 *)
  else if lnot (STRCASECMP str kRlt0541htaaStr) then R_LT0541_HTA_A
  else if lnot (STRCASECMP str kRlt0541htabStr) then R_LT0541_HTA_B
  (* Fujitsu *)
  else if lnot (STRCASECMP str kArrah2eStr) then ARRAH2E
  else if lnot (STRCASECMP str kArdb1Str) then ARDB1
  else if lnot (STRCASECMP str kArreb1eStr) then ARREB1E
  else if lnot (STRCASECMP str kArjw2Str) then ARJW2
  else if lnot (STRCASECMP str kArry4Str) then ARRY4
  else if lnot (STRCASECMP str kArrew4eStr) then ARREW4E
  (* LG *)
  else if lnot (STRCASECMP str kGe6711ar2853mStr) then GE6711AR2853M
  else if lnot (STRCASECMP str kAkb75215403Str) then AKB75215403
  else if lnot (STRCASECMP str kAkb74955603Str) then AKB74955603
  else if lnot (STRCASECMP str kAkb73757604Str) then AKB73757604
  else if lnot (STRCASECMP str kLg6711a20083vStr) then LG6711A20083V
  (* Panasonic *)
  else if lnot (STRCASECMP str kLkeStr) ||
          lnot (STRCASECMP str kPanasonicLkeStr) then kPanasonicLke
  else if lnot (STRCASECMP str kNkeStr) ||
          lnot (STRCASECMP str kPanasonicNkeStr) then kPanasonicNke
  else if lnot (STRCASECMP str kDkeStr) ||
          lnot (STRCASECMP str kPanasonicDkeStr) ||
          lnot (STRCASECMP str kPkrStr) ||
          lnot (STRCASECMP str kPanasonicPkrStr) then kPanasonicDke
  else if lnot (STRCASECMP str kJkeStr) ||
          lnot (STRCASECMP str kPanasonicJkeStr) then kPanasonicJke
  else if lnot (STRCASECMP str kCkpStr) ||
          lnot (STRCASECMP str kPanasonicCkpStr) then kPanasonicCkp
  else if lnot (STRCASECMP str kRkrStr) ||
          lnot (STRCASECMP str kPanasonicRkrStr) then kPanasonicRkr
  (* Sharp *)
  else if lnot (STRCASECMP str kA907Str) then A907
  else if lnot (STRCASECMP str kA705Str) then A705
  else if lnot (STRCASECMP str kA903Str) then A903
  (* TCL *)
  else if lnot (STRCASECMP str kTac09chsdStr) then TAC09CHSD
  else if lnot (STRCASECMP str kGz055be1Str) then GZ055BE1
  (* Voltas *)
  else if lnot (STRCASECMP str k122lzfStr) then kVoltas122LZF
  (* Whirlpool *)
  else if lnot (STRCASECMP str kDg11j13aStr) ||
          lnot (STRCASECMP str kDg11j104Str) then DG11J13A
  else if lnot (STRCASECMP str kDg11j191Str) then DG11J191
  (* Argo *)
  else if lnot (STRCASECMP str kArgoWrem2Str) then SAC_WREM2
  else if lnot (STRCASECMP str kArgoWrem3Str) then SAC_WREM3
  else
    let number := to_int16 (atoi str) in
    if number >? 0 then number else def.

(** Every model code that [strToModel] can answer by name. *)
Definition model_codes : list Z :=
  [ YAW1F; YBOFB; YX1FSF; V9014557_A; V9014557_B;
    R_LT0541_HTA_A; R_LT0541_HTA_B;
    ARRAH2E; ARDB1; ARREB1E; ARJW2; ARRY4; ARREW4E;
    GE6711AR2853M; AKB75215403; AKB74955603; AKB73757604; LG6711A20083V;
    kPanasonicLke; kPanasonicNke; kPanasonicDke; kPanasonicJke;
    kPanasonicCkp; kPanasonicRkr;
    A907; A705; A903; TAC09CHSD; GZ055BE1; kVoltas122LZF;
    DG11J13A; DG11J191; SAC_WREM2; SAC_WREM3 ].

End Models.

(** *** Words for the statements *)

(** A string with its letters A to Z lower-cased. *)
Fixpoint strlwr (s : string) : string :=
  match s with
  | EmptyString => EmptyString
  | String c s' => String (tolower c) (strlwr s')
  end.

(** The protocols that are case labels of the [switch] of
    [handleToggles]. *)
Definition toggle_protocols : list decode_type_t :=
  [COOLIX; TRANSCOLD; DAIKIN128; ELECTRA_AC; FUJITSU_AC; MIDEA; CORONA_AC;
   HITACHI_AC344; HITACHI_AC424; SHARP_AC; KELON; AIRWELL; DAIKIN64;
   PANASONIC_AC32; WHIRLPOOL_AC; MIRAGE; PANASONIC_AC; SAMSUNG_AC].

(** The calls made on the driver that [sendAc] used. *)
Definition lg_calls_of (used : option driver_use) : list IRLgAc_call :=
  match used with
  | Some (UseIRLgAc _ _ _ calls) => calls
  | _ => []
  end.

Definition rhoss_calls_of (used : option driver_use) : list IRRhossAc_call :=
  match used with
  | Some (UseIRRhossAc _ _ _ calls) => calls
  | _ => []
  end.

(** The (vane, position) arguments of the [setVaneSwingV] calls. *)
Definition vane_calls (calls : list IRLgAc_call) : list (Z * Z) :=
  flat_map
    (fun c => match c with LgSetVaneSwingV v p => [(v, p)] | _ => [] end)
    calls.

(** How many times [setSwingV] is called. *)
Definition count_setSwingV (calls : list IRLgAc_call) : nat :=
  List.length
    (List.filter
       (fun c => match c with LgSetSwingV _ => true | _ => false end)
       calls).

(** The arguments of the [setPower] calls on either driver. *)
Definition powers_handed (used : option driver_use) : list bool :=
  flat_map (fun c => match c with LgSetPower b => [b] | _ => [] end)
    (lg_calls_of used) ++
  flat_map (fun c => match c with RhossSetPower b => [b] | _ => [] end)
    (rhoss_calls_of used).

(** The previous vertical swing that [sendAc] works with when the pointer
    may be null. *)
Definition prev_swingv_of (prev : option state_t) : swingv_t.t :=
  match prev with
  | Some prev => swingv prev
  | None => swingv_t.kOff
  end.

(** *** Concrete collaborators for the examples *)

Definition lg_common_sample : IRLgAc_toCommon :=
  {| lg_toCommon := fun v p prev =>
       set_protocol p
         (set_power (Z.odd v)
            (match prev with Some s => s | None => state_default end)) |}.

Definition rhoss_common_sample : IRRhossAc_toCommon :=
  {| rhoss_toCommon := fun st =>
       set_protocol RHOSS
         (set_power (negb (List.length st =? 0)%nat) state_default) |}.

(** An LG frame that the stand-in driver finds valid. *)
Definition lg_frame : decode_results := mk_decode_results LG 142608389 [].

(** An LG state in cool mode, and a dispatcher about to send it. *)
Definition lg_cool : state_t :=
  initState state_default LG 5 true opmode_t.kCool (float_of_Z 22) true
    fanspeed_t.kHigh swingv_t.kAuto swingh_t.kOff
    false false false true false false false (-1) (-1).

Definition irac_lg_cool : IRac := mk_IRac 4 false true lg_cool state_default.

(** A model table for the examples: codes by position in their
    enumeration, names as the constants spell them. *)
Definition table_sample : ModelTable :=
  {| YAW1F := 1; YBOFB := 2; YX1FSF := 3;
     V9014557_A := 1; V9014557_B := 2;
     R_LT0541_HTA_A := 1; R_LT0541_HTA_B := 2;
     ARRAH2E := 1; ARDB1 := 2; ARREB1E := 3; ARJW2 := 4; ARRY4 := 5;
     ARREW4E := 6;
     GE6711AR2853M := 1; AKB75215403 := 2; AKB74955603 := 3;
     AKB73757604 := 4;
     kPanasonicLke := 1; kPanasonicNke := 2; kPanasonicDke := 3;
     kPanasonicJke := 4; kPanasonicRkr := 6;
     A907 := 1; A705 := 2; A903 := 3;
     TAC09CHSD := 1; GZ055BE1 := 2;
     kVoltas122LZF := 1;
     DG11J13A := 1; DG11J191 := 2;
     SAC_WREM2 := 1; SAC_WREM3 := 2;
     kYaw1fStr := "YAW1F"; kYbofbStr := "YBOFB"; kYx1fsfStr := "YX1FSF";
     kV9014557AStr := "V9014557-A"; kV9014557BStr := "V9014557-B";
     kRlt0541htaaStr := "R-LT0541-HTA-A";
     kRlt0541htabStr := "R-LT0541-HTA-B";
     kArrah2eStr := "ARRAH2E"; kArdb1Str := "ARDB1";
     kArreb1eStr := "ARREB1E"; kArjw2Str := "ARJW2"; kArry4Str := "ARRY4";
     kArrew4eStr := "ARREW4E";
     kGe6711ar2853mStr := "GE6711AR2853M";
     kAkb75215403Str := "AKB75215403"; kAkb74955603Str := "AKB74955603";
     kAkb73757604Str := "AKB73757604";
     kLg6711a20083vStr := "LG6711A20083V";
     kLkeStr := "LKE"; kPanasonicLkeStr := "PANASONICLKE";
     kNkeStr := "NKE"; kPanasonicNkeStr := "PANASONICNKE";
     kDkeStr := "DKE"; kPanasonicDkeStr := "PANASONICDKE";
     kPkrStr := "PKR"; kPanasonicPkrStr := "PANASONICPKR";
     kJkeStr := "JKE"; kPanasonicJkeStr := "PANASONICJKE";
     kCkpStr := "CKP"; kPanasonicCkpStr := "PANASONICCKP";
     kRkrStr := "RKR"; kPanasonicRkrStr := "PANASONICRKR";
     kA907Str := "A907"; kA705Str := "A705"; kA903Str := "A903";
     kTac09chsdStr := "TAC09CHSD"; kGz055be1Str := "GZ055BE1";
     k122lzfStr := "122LZF";
     kDg11j13aStr := "DG11J13A"; kDg11j104Str := "DG11J104";
     kDg11j191Str := "DG11J191";
     kArgoWrem2Str := "WREM2"; kArgoWrem3Str := "WREM3" |}%string.

(** *** Words for the statements, continued *)






(** The arguments of the [setSwingV] calls, in order. *)
Definition setSwingV_args (calls : list IRLgAc_call) : list Z :=
  flat_map (fun c => match c with LgSetSwingV p => [p] | _ => [] end) calls.

(** An LG state whose sensor temperature is NaN. *)
Definition nan_sensor_state : state_t :=
  mk_state LG 1 true opmode_t.kCool (float_of_Z 22) true
    fanspeed_t.kAuto swingv_t.kOff swingh_t.kOff
    false false false false false false false (-1) (-1)
    ac_command_t.kControlCommand FNaN false.

(** * Properties *)

(** ** Equality tests *)

Lemma decode_type_eqb_eq (a b : decode_type_t) :
  decode_type_eqb a b = true <-> a = b.
Proof.
  unfold decode_type_eqb.
  destruct (decode_type_eq_dec a b); split; congruence.
Qed.

Lemma decode_type_eqb_refl (a : decode_type_t) : decode_type_eqb a a = true.
Proof. now apply decode_type_eqb_eq. Qed.

Lemma float_eqb_eq (a b : float) :
  float_eqb a b = true <-> a = b /\ float_isnan a = false.
Proof.
  destruct a as [x|], b as [y|]; cbn; try (split; [discriminate|]);
    try (intros [H1 H2]; discriminate).
  rewrite Qeq_bool_iff. split.
  - intros H. split; [|reflexivity]. f_equal. now apply Qc_is_canon.
  - intros [H _]. injection H as ->. reflexivity.
Qed.

Lemma opmode_eqb_eq (a b : opmode_t.t) : opmode_t.eqb a b = true <-> a = b.
Proof.
  unfold opmode_t.eqb. destruct (opmode_t.eq_dec a b); split; congruence.
Qed.

Lemma fanspeed_eqb_eq (a b : fanspeed_t.t) :
  fanspeed_t.eqb a b = true <-> a = b.
Proof.
  unfold fanspeed_t.eqb. destruct (fanspeed_t.eq_dec a b); split; congruence.
Qed.

Lemma swingv_eqb_eq (a b : swingv_t.t) : swingv_t.eqb a b = true <-> a = b.
Proof.
  unfold swingv_t.eqb. destruct (swingv_t.eq_dec a b); split; congruence.
Qed.

Lemma swingh_eqb_eq (a b : swingh_t.t) : swingh_t.eqb a b = true <-> a = b.
Proof.
  unfold swingh_t.eqb. destruct (swingh_t.eq_dec a b); split; congruence.
Qed.

Lemma command_eqb_eq (a b : ac_command_t.t) :
  ac_command_t.eqb a b = true <-> a = b.
Proof.
  unfold ac_command_t.eqb.
  destruct (ac_command_t.eq_dec a b); split; congruence.
Qed.

Lemma swingv_eqb_kOff (a : swingv_t.t) :
  swingv_t.eqb a swingv_t.kOff = true <-> a = swingv_t.kOff.
Proof. apply swingv_eqb_eq. Qed.

(** ** The normaliser *)

(** C8.  [cleanState x] is [x] with [power] reassigned and nothing else
    touched, and the [power] it carries is [false] when [x.mode] is off and
    [x.power] otherwise. *)
Theorem cleanState_touches_only_power (x : state_t) :
  cleanState x = set_power (power (cleanState x)) x /\
  power (cleanState x) =
    match mode x with
    | opmode_t.kOff => false
    | _ => power x
    end.
Proof.
  unfold cleanState.
  destruct x as [pr mo pw md dg ce fa sv sh qu tu ec li fi cl be sl ck co st iF].
  destruct md; split; reflexivity.
Qed.

Lemma cleanState_mode (x : state_t) : mode (cleanState x) = mode x.
Proof.
  unfold cleanState. destruct (opmode_t.eqb (mode x) opmode_t.kOff);
    reflexivity.
Qed.

Lemma cleanState_idempotent (x : state_t) :
  cleanState (cleanState x) = cleanState x.
Proof.
  unfold cleanState.
  destruct x as [pr mo pw md dg ce fa sv sh qu tu ec li fi cl be sl ck co st iF].
  destruct md; reflexivity.
Qed.


(** ** Comparing states *)

Lemma cmpStates_false_iff (a b : state_t) :
  cmpStates a b = false <->
  set_clock (clock a) b = a /\ has_nan a = false.
Proof.
  destruct a as [pr mo pw md dg ce fa sv sh qu tu ec li fi cl be sl ck co st iF].
  destruct b as
    [pr' mo' pw' md' dg' ce' fa' sv' sh' qu' tu' ec' li' fi' cl' be' sl' ck' co' st' iF'].
  unfold cmpStates, set_clock, has_nan; cbn [protocol model power mode degrees
    celsius fanspeed swingv swingh quiet turbo econo light filter clean beep
    sleep clock command sensorTemperature iFeel].
  rewrite !orb_false_iff, !negb_false_iff.
  rewrite decode_type_eqb_eq, !Z.eqb_eq, !Bool.eqb_true_iff, opmode_eqb_eq,
    !float_eqb_eq, fanspeed_eqb_eq, swingv_eqb_eq, swingh_eqb_eq,
    command_eqb_eq.
  split.
  - intros H. decompose [and] H. subst. repeat split; assumption.
  - intros [H [Hd Hs]].
    injection H as -> -> -> -> -> -> -> -> -> -> -> -> -> -> -> -> -> -> -> ->.
    repeat split; assumption.
Qed.

(** C7, amended.  [cmpStates a b] holds exactly when [b], with its clock
    replaced by the clock of [a], is not [a] (the two differ in a field
    other than [clock]) or a temperature of [a] is NaN.  A state compared
    with itself under another clock gives false exactly when neither of
    its temperatures is NaN. *)
Theorem cmpStates_differs_outside_clock (a b : state_t) :
  (cmpStates a b = true <->
   set_clock (clock a) b <> a \/ has_nan a = true) /\
  (forall k : Z, cmpStates a (set_clock k a) = has_nan a).
Proof.
  split.
  - rewrite <- not_false_iff_true, cmpStates_false_iff.
    destruct (has_nan a); split.
    + intros _. right. reflexivity.
    + intros _ [_ H]. discriminate H.
    + intros H. left. intros E. apply H. split; [exact E | reflexivity].
    + intros [H|H] [E _]; [contradiction | discriminate H].
  - intros k. destruct (cmpStates a (set_clock k a)) eqn:C.
    + destruct (has_nan a) eqn:N; [reflexivity|]. exfalso.
      assert (C' : cmpStates a (set_clock k a) = false).
      { apply cmpStates_false_iff. split; [destruct a; reflexivity | exact N]. }
      congruence.
    + apply cmpStates_false_iff in C. destruct C as [_ N]. now rewrite N.
Qed.

(** C7, as stated, fails: a state whose sensor temperature is NaN differs
    from itself for [cmpStates], under its own clock and under any other,
    because NaN is not equal to NaN. *)
Lemma cmpStates_nan_state_differs_from_itself :
  set_clock (clock nan_sensor_state) nan_sensor_state = nan_sensor_state /\
  cmpStates nan_sensor_state nan_sensor_state = true /\
  cmpStates nan_sensor_state (set_clock 600 nan_sensor_state) = true.
Proof. split; [reflexivity|]. split; reflexivity. Qed.

(** ** Parsing after rendering *)

(** C9.  For each of the six vocabularies, parsing the rendering of a value
    gives the value back, whatever the default is (so also when the default
    differs from the value).  For the operation mode this holds for both
    renderings of [kFan]. *)
Theorem parse_render_roundtrip :
  (forall (v : opmode_t.t) (ha : bool) (d : opmode_t.t),
      strToOpmode (opmodeToString v ha) d = v) /\
  (forall (v d : fanspeed_t.t), strToFanspeed (fanspeedToString v) d = v) /\
  (forall (v d : swingv_t.t), strToSwingV (swingvToString v) d = v) /\
  (forall (v d : swingh_t.t), strToSwingH (swinghToString v) d = v) /\
  (forall (v d : ac_command_t.t),
      strToCommandType (commandTypeToString v) d = v) /\
  (forall (v d : bool), strToBool (boolToString v) d = v).
Proof.
  repeat split.
  - intros v ha d. destruct v, ha; reflexivity.
  - intros v d. destruct v; reflexivity.
  - intros v d. destruct v; reflexivity.
  - intros v d. destruct v; reflexivity.
  - intros v d. destruct v; reflexivity.
  - intros v d. destruct v; reflexivity.
Qed.

(** The synonyms of the specification's sixth scenario. *)
Example strToOpmode_fan_only :
  strToOpmode "fan_only" opmode_t.kAuto = opmode_t.kFan.
Proof. reflexivity. Qed.

Example strToSwingH_Max_Left :
  strToSwingH "Max Left" swingh_t.kOff = swingh_t.kLeftMax.
Proof. reflexivity. Qed.

Example strToBool_YES : strToBool "YES" false = true.
Proof. reflexivity. Qed.

Example strToOpmode_no_match :
  strToOpmode "warm" opmode_t.kDry = opmode_t.kDry.
Proof. reflexivity. Qed.

(** ** The toggle resolver *)

Ltac split_conditionals :=
  repeat match goal with
         | |- context [if ?c then _ else _] => destruct c
         end.

Section ToggleFacts.

Context {codes : ModelCodes}.

Lemma handleToggles_null (d : state_t) : handleToggles d None = d.
Proof. reflexivity. Qed.

Lemma handleToggles_other_unit (d p : state_t) :
  protocol d <> protocol p \/ model d <> model p ->
  handleToggles d (Some p) = d.
Proof.
  intros H. unfold handleToggles.
  destruct (decode_type_eqb (protocol d) (protocol p)) eqn:Ep;
    [|reflexivity].
  destruct (model d =? model p) eqn:Em; [|reflexivity].
  apply decode_type_eqb_eq in Ep. apply Z.eqb_eq in Em.
  destruct H; contradiction.
Qed.

(** With the same protocol and model the guard of [handleToggles] is passed
    and the [switch] is entered. *)
Lemma handleToggles_same_unit (d p : state_t) :
  protocol d = protocol p -> model d = model p ->
  decode_type_eqb (protocol d) (protocol p) && (model d =? model p) = true.
Proof.
  intros -> ->. now rewrite decode_type_eqb_refl, Z.eqb_refl.
Qed.

Lemma toggle_swingv_swingv (d p r : state_t) :
  swingv (toggle_swingv d p r) =
    if xorb (swingv_t.eqb (swingv d) swingv_t.kOff)
            (swingv_t.eqb (swingv p) swingv_t.kOff)
    then swingv_t.kAuto else swingv_t.kOff.
Proof. unfold toggle_swingv. split_conditionals; reflexivity. Qed.

Lemma handleToggles_protocol (d : state_t) (prev : option state_t) :
  protocol (handleToggles d prev) = protocol d.
Proof.
  unfold handleToggles, toggle_swingv.
  destruct prev as [p|]; [|reflexivity].
  destruct (decode_type_eqb (protocol d) (protocol p) && (model d =? model p));
    [|reflexivity].
  destruct (protocol d) eqn:E; split_conditionals; cbn;
    first [reflexivity | exact E].
Qed.

Lemma handleToggles_swingv (d p : state_t) :
  protocol d = protocol p -> model d = model p ->
  In (protocol d) spec_swingv_protocols ->
  swingv (handleToggles d (Some p)) =
    if xorb (swingv_t.eqb (swingv d) swingv_t.kOff)
            (swingv_t.eqb (swingv p) swingv_t.kOff)
    then swingv_t.kAuto else swingv_t.kOff.
Proof.
  intros Hp Hm Hin. unfold handleToggles.
  rewrite (handleToggles_same_unit d p Hp Hm).
  unfold spec_swingv_protocols in Hin. cbn [In] in Hin.
  repeat (destruct Hin as [<-|Hin]; [cbn; apply toggle_swingv_swingv|]);
    contradiction.
Qed.

Lemma handleToggles_field (d p : state_t) (f : bool_field) :
  protocol d = protocol p -> model d = model p ->
  In f (spec_toggle_fields (protocol d) (model d)) ->
  get_field f (handleToggles d (Some p)) = xorb (get_field f d) (get_field f p).
Proof.
  intros Hp Hm Hin. unfold handleToggles.
  rewrite (handleToggles_same_unit d p Hp Hm).
  unfold spec_toggle_fields in Hin.
  destruct (protocol d); cbn [In] in Hin; try contradiction;
    try (destruct (model d =? KKG29AC1));
    try (destruct (model d =? kPanasonicCkp));
    cbn [In app] in Hin;
    repeat (destruct Hin as [<-|Hin];
            [unfold toggle_swingv; split_conditionals; reflexivity|]);
    contradiction.
Qed.

Lemma handleToggles_sleep (d p : state_t) :
  protocol d = protocol p -> model d = model p ->
  In (protocol d) spec_sleep_protocols ->
  sleep (handleToggles d (Some p)) =
    if xorb (sleep d >=? 0) (sleep p >=? 0) then 0 else -1.
Proof.
  intros Hp Hm Hin. unfold handleToggles.
  rewrite (handleToggles_same_unit d p Hp Hm).
  unfold spec_sleep_protocols in Hin. cbn [In] in Hin.
  repeat (destruct Hin as [<-|Hin]; [reflexivity|]); contradiction.
Qed.

Lemma xorb_eqb_kOff (a b : swingv_t.t) :
  xorb (swingv_t.eqb a swingv_t.kOff) (swingv_t.eqb b swingv_t.kOff) = true
  <-> ~ (a = swingv_t.kOff <-> b = swingv_t.kOff).
Proof.
  rewrite <- !swingv_eqb_kOff.
  destruct (swingv_t.eqb a swingv_t.kOff), (swingv_t.eqb b swingv_t.kOff);
    cbn; intuition congruence.
Qed.

(** C4.  With the same protocol and model, for each protocol that has the
    swingv rule, the resolved [swingv] is auto or off, and it is auto exactly
    when "desired swingv is off" and "previous swingv is off" differ. *)
Theorem handleToggles_swingv_rule (d p : state_t) :
  protocol d = protocol p -> model d = model p ->
  In (protocol d) spec_swingv_protocols ->
  (swingv (handleToggles d (Some p)) = swingv_t.kAuto \/
   swingv (handleToggles d (Some p)) = swingv_t.kOff) /\
  (swingv (handleToggles d (Some p)) = swingv_t.kAuto <->
   ~ (swingv d = swingv_t.kOff <-> swingv p = swingv_t.kOff)).
Proof.
  intros Hp Hm Hin.
  rewrite (handleToggles_swingv d p Hp Hm Hin), <- xorb_eqb_kOff.
  destruct (xorb _ _); split; auto; split; congruence.
Qed.

(** C5.  With the same protocol and model, every boolean field that the
    rewrite table lists as a toggle for the protocol (and model, for MIRAGE
    and PANASONIC_AC) resolves to desired XOR previous. *)
Theorem handleToggles_toggle_is_xor (d p : state_t) (f : bool_field) :
  protocol d = protocol p -> model d = model p ->
  In f (spec_toggle_fields (protocol d) (model d)) ->
  get_field f (handleToggles d (Some p)) = xorb (get_field f d) (get_field f p).
Proof. apply handleToggles_field. Qed.

End ToggleFacts.

(** ** The dispatcher *)

Lemma cleanState_protocol (x : state_t) : protocol (cleanState x) = protocol x.
Proof.
  unfold cleanState. destruct (opmode_t.eqb (mode x) opmode_t.kOff);
    reflexivity.
Qed.

Lemma cleanState_degrees (x : state_t) : degrees (cleanState x) = degrees x.
Proof.
  unfold cleanState. destruct (opmode_t.eqb (mode x) opmode_t.kOff);
    reflexivity.
Qed.

Lemma handleToggles_degrees {codes : ModelCodes}
  (d : state_t) (prev : option state_t) :
  degrees (handleToggles d prev) = degrees d.
Proof.
  unfold handleToggles, toggle_swingv.
  destruct prev as [p|]; [|reflexivity].
  destruct (decode_type_eqb (protocol d) (protocol p) && (model d =? model p));
    [|reflexivity].
  destruct (protocol d); split_conditionals; reflexivity.
Qed.

Lemma flat_map_map_nil {A B C : Type} (f : A -> B) (g : B -> list C)
  (l : list A) :
  (forall a, g (f a) = []) -> flat_map g (map f l) = [].
Proof.
  intros H. induction l as [|a l IH]; cbn; [reflexivity|].
  now rewrite H, IH.
Qed.

Section DispatcherFacts.

Variable cfg : build_config.
Context {codes : ModelCodes} {lgac : IRLgAc} {rhossac : IRRhossAc}.

Lemma sendAc_send_protocol (desired : state_t) (prev : option state_t) :
  protocol (sendAc_send desired prev) = protocol desired.
Proof.
  unfold sendAc_send. now rewrite handleToggles_protocol, cleanState_protocol.
Qed.

Lemma sendAc_send_degrees (desired : state_t) (prev : option state_t) :
  degrees (sendAc_send desired prev) = degrees desired.
Proof.
  unfold sendAc_send. now rewrite handleToggles_degrees, cleanState_degrees.
Qed.

(** Which protocols the structured [sendAc] accepts: those of the two arms
    of its [switch]. *)
Lemma sendAc_true_iff (self : IRac) (desired : state_t)
  (prev : option state_t) :
  fst (sendAc cfg self desired prev) = true <->
  ((protocol desired = LG \/ protocol desired = LG2) /\ cfg SEND_LG = true) \/
  (protocol desired = RHOSS /\ cfg SEND_RHOSS = true).
Proof.
  unfold sendAc. rewrite sendAc_send_protocol.
  destruct (protocol desired);
    try (cbn; split; [discriminate | intros [[[H|H] _]|[H _]]; discriminate]).
  - destruct (cfg SEND_LG); cbn; split; intros H; auto;
      try discriminate; destruct H as [[_ H]|[H _]]; discriminate.
  - destruct (cfg SEND_LG); cbn; split; intros H; auto;
      try discriminate; destruct H as [[_ H]|[H _]]; discriminate.
  - destruct (cfg SEND_RHOSS); cbn; split; intros H; auto;
      try discriminate; destruct H as [[[H|H] _]|[_ H]]; discriminate.
Qed.

(** A protocol that [sendAc] accepts is one that [isProtocolSupported]
    reports. *)
Lemma sendAc_true_supported (self : IRac) (desired : state_t)
  (prev : option state_t) :
  fst (sendAc cfg self desired prev) = true ->
  isProtocolSupported cfg (protocol desired) = true.
Proof.
  rewrite sendAc_true_iff.
  intros [[[-> | ->] H]|[-> H]]; exact H.
Qed.

(** The converse needs a build in which no sender but LG and RHOSS is
    switched on. *)
Lemma sendAc_false_iff_unsupported (self : IRac) (desired : state_t)
  (prev : option state_t) :
  (forall m, cfg m = true ->
             m = SEND_LG \/ m = SEND_RHOSS \/ m = DECODE_LG \/ m = DECODE_RHOSS) ->
  (fst (sendAc cfg self desired prev) = false <->
   isProtocolSupported cfg (protocol desired) = false).
Proof.
  intros Honly. split.
  - intros Hsend.
    destruct (isProtocolSupported cfg (protocol desired)) eqn:Hsup;
      [|reflexivity].
    rewrite <- Hsend. symmetry. apply sendAc_true_iff.
    unfold isProtocolSupported in Hsup.
    destruct (protocol desired); try discriminate; auto;
      apply Honly in Hsup;
      destruct Hsup as [H|[H|[H|H]]]; discriminate.
  - intros Hsup.
    destruct (fst (sendAc cfg self desired prev)) eqn:Hsend; [|reflexivity].
    apply sendAc_true_supported in Hsend. congruence.
Qed.

(** The no-argument [sendAc] reports what the structured one reports. *)
Lemma sendAc_void_result (self : IRac) :
  fst (fst (sendAc_void cfg self)) =
  fst (sendAc cfg self (next self) (Some (_prev self))).
Proof.
  unfold sendAc_void.
  destruct (sendAc cfg self (next self) (Some (_prev self))) as [ok used].
  reflexivity.
Qed.

(** C2, amended.  After the no-argument [sendAc], [getStatePrev()] is the
    internal state [next] as the caller left it when the call returned true,
    and the former [_prev] when it returned false; [next] is not changed. *)
Theorem sendAc_void_commits_next (self : IRac) :
  getStatePrev (snd (fst (sendAc_void cfg self))) =
    (if fst (fst (sendAc_void cfg self)) then next self else _prev self) /\
  getState (snd (fst (sendAc_void cfg self))) = next self.
Proof.
  unfold sendAc_void.
  destruct (sendAc cfg self (next self) (Some (_prev self))) as [[|] used];
    cbn; split; reflexivity.
Qed.

(** What the two arms hand to [setTemp]. *)
Lemma sendAc_rhoss_temp (self : IRac) (desired : state_t)
  (prev : option state_t) :
  protocol desired = RHOSS -> cfg SEND_RHOSS = true ->
  temps_handed (snd (sendAc cfg self desired prev)) = [sendAc_degC desired].
Proof.
  intros Hp Hon. unfold sendAc.
  rewrite sendAc_send_protocol, Hp, Hon. reflexivity.
Qed.

Lemma sendAc_lg_temp (self : IRac) (desired : state_t)
  (prev : option state_t) :
  protocol desired = LG \/ protocol desired = LG2 -> cfg SEND_LG = true ->
  temps_handed (snd (sendAc cfg self desired prev)) = [degrees desired].
Proof.
  intros Hp Hon. unfold sendAc.
  rewrite sendAc_send_protocol, sendAc_send_degrees.
  assert (Hloop : forall pos n,
    flat_map (fun c => match c with LgSetTemp t => [t] | _ => [] end)
      (map (fun vane => LgSetVaneSwingV (Z.of_nat vane) pos) (seq 0 n)) = []).
  { intros pos n. now apply flat_map_map_nil. }
  destruct Hp as [-> | ->]; rewrite Hon; cbn [snd temps_handed]; unfold lg;
    rewrite !flat_map_app, Hloop; split_conditionals; reflexivity.
Qed.

End DispatcherFacts.

(** ** The dispatcher on concrete inputs *)

(** C1.  In a build with the COOLIX sender switched on,
    [isProtocolSupported] reports COOLIX as supported, and the structured
    [sendAc] returns false for every COOLIX state: its [switch] has arms for
    LG, LG2 and RHOSS only. *)
Theorem sendAc_refuses_supported_COOLIX
  {codes : ModelCodes} {lgac : IRLgAc} {rhossac : IRRhossAc}
  (self : IRac) (desired : state_t) (prev : option state_t) :
  isProtocolSupported build_all COOLIX = true /\
  fst (sendAc build_all self (set_protocol COOLIX desired) prev) = false.
Proof.
  split; [reflexivity|].
  destruct (fst (sendAc build_all self (set_protocol COOLIX desired) prev))
    eqn:E; [|reflexivity].
  apply sendAc_true_iff in E. cbn [protocol set_protocol] in E.
  destruct E as [[[H|H] _]|[H _]]; discriminate.
Qed.

(** In the build that switches on LG and RHOSS only, the two agree. *)
Lemma sendAc_false_iff_unsupported_light
  {codes : ModelCodes} {lgac : IRLgAc} {rhossac : IRRhossAc}
  (self : IRac) (desired : state_t) (prev : option state_t) :
  fst (sendAc build_light self desired prev) = false <->
  isProtocolSupported build_light (protocol desired) = false.
Proof.
  apply sendAc_false_iff_unsupported.
  intros m. destruct m; cbn; intros H; try discriminate; auto.
Qed.

(** C2, as stated, fails: an LG state with mode off and power on is sent
    successfully, and afterwards [getStatePrev()] still has power on, while
    the normalised, toggle-resolved state has power off. *)
Lemma sendAc_void_prev_is_not_the_resolved_state :
  fst (fst (@sendAc_void build_light codes_sample lg_sample rhoss_sample
              irac_lg_mode_off)) = true /\
  getStatePrev
    (snd (fst (@sendAc_void build_light codes_sample lg_sample rhoss_sample
                 irac_lg_mode_off)))
  <> @handleToggles codes_sample (cleanState (next irac_lg_mode_off))
       (Some (_prev irac_lg_mode_off)) /\
  power (getStatePrev
    (snd (fst (@sendAc_void build_light codes_sample lg_sample rhoss_sample
                 irac_lg_mode_off)))) = true /\
  power (@handleToggles codes_sample (cleanState (next irac_lg_mode_off))
           (Some (_prev irac_lg_mode_off))) = false.
Proof.
  split; [reflexivity|]. split; [|split; reflexivity].
  intros H. apply (f_equal power) in H. discriminate H.
Qed.

(** The fourth scenario: an unknown protocol is refused and [_prev]
    stays. *)
Example sendAc_void_unknown_protocol :
  @sendAc_void build_all codes_sample lg_sample rhoss_sample irac_sample =
  (false, irac_sample, None).
Proof. reflexivity. Qed.

(** C3.  At 72 degrees Fahrenheit with the room sensor at 77: the RHOSS
    driver is handed the converted 200/9 (22.2...) degrees; the sensor
    temperature that [sendAc] computes is the unconverted 77, not 25; the LG
    driver is handed the unconverted 72. *)
Theorem sendAc_fahrenheit_handling :
  map float_value
    (temps_handed
       (snd (@sendAc build_all codes_sample lg_sample rhoss_sample
               irac_sample (fahrenheit_72 RHOSS) None))) = [Some (200 # 9)] /\
  float_value (spec_toCelsius (fahrenheit_72 RHOSS) (float_of_Z 72))
    = Some (200 # 9) /\
  float_value (sendAc_sensorTempC (fahrenheit_72 RHOSS)) = Some (77 # 1) /\
  float_value (spec_toCelsius (fahrenheit_72 RHOSS)
                 (sensorTemperature (fahrenheit_72 RHOSS))) = Some (25 # 1) /\
  map float_value
    (temps_handed
       (snd (@sendAc build_all codes_sample lg_sample rhoss_sample
               irac_sample (fahrenheit_72 LG) None))) = [Some (72 # 1)].
Proof.
  split; [reflexivity|]. split; [reflexivity|]. split; [reflexivity|].
  split; reflexivity.
Qed.

(** With a Celsius state whose sensor temperature is zero, the sensor
    temperature that [sendAc] computes is converted all the same. *)
Example sendAc_sensorTempC_of_zero :
  float_value
    (sendAc_sensorTempC
       (mk_state RHOSS 1 true opmode_t.kCool (float_of_Z 22) true
          fanspeed_t.kAuto swingv_t.kOff swingh_t.kOff
          false false false false false false false (-1) (-1)
          ac_command_t.kControlCommand (float_of_Z 0) false))
  = Some ((-160) # 9).
Proof. reflexivity. Qed.

(** The third scenario: COOLIX turbo. *)
Example handleToggles_coolix_turbo :
  turbo (@handleToggles codes_sample coolix_turbo_on (Some coolix_turbo_off))
    = true /\
  turbo (@handleToggles codes_sample coolix_turbo_on (Some coolix_turbo_on))
    = false.
Proof. split; reflexivity. Qed.

(** The second scenario: an LG6711A20083V unit going from swing off to
    swing high is sent the swing toggle after the vanes are set. *)
Example sendAc_lg_swing_toggle :
  snd (@sendAc build_all codes_sample lg_sample rhoss_sample irac_sample
         lg_swing_high (Some (set_swingv swingv_t.kOff lg_swing_high))) =
  Some (UseIRLgAc 4 false true
          [ LgBegin; LgSetModel 5; LgSetPower true; LgSetMode 0;
            LgSetTemp (float_of_Z 22); LgSetFan 10;
            LgSetSwingV 1; LgUpdateSwingPrev; LgSetSwingV 0;
            LgSetVaneSwingV 0 3; LgSetVaneSwingV 1 3; LgSetVaneSwingV 2 3;
            LgSetVaneSwingV 3 3; LgSetVaneSwingV 4 3; LgSetVaneSwingV 5 3;
            LgSetSwingV 8813847;
            LgSetSwingH false; LgSetLight true; LgSend ]).
Proof. reflexivity. Qed.

(** ** Rendering decoded frames *)

(** C6, as stated, fails: a Rhoss frame that the driver reports invalid is
    rendered all the same. *)
Lemma resultAcToString_renders_invalid_rhoss :
  decoder_enabled build_all (decode_type rhoss_short_frame) = true /\
  @frame_valid lg_sample rhoss_validation_sample rhoss_short_frame = false /\
  @IRAcUtils.resultAcToString build_all lg_sample rhoss_sample
     rhoss_short_frame <> EmptyString /\
  @IRAcUtils.resultAcToString build_all lg_sample rhoss_sample
     rhoss_short_frame <>
  @spec_resultAcToString build_all lg_sample rhoss_sample
     rhoss_validation_sample rhoss_short_frame.
Proof.
  split; [reflexivity|]. split; [reflexivity|]. split; discriminate.
Qed.

(** The RHOSS arm renders whatever the frame is. *)
Lemma resultAcToString_rhoss (cfg : build_config)
  {lgac : IRLgAc} {rhossac : IRRhossAc} (r : decode_results) :
  decode_type r = RHOSS -> cfg DECODE_RHOSS = true ->
  IRAcUtils.resultAcToString cfg r = rhoss_toString (state r).
Proof.
  intros Hp Hon. unfold IRAcUtils.resultAcToString. now rewrite Hp, Hon.
Qed.

(** On LG and LG2 frames the code does what the specification words. *)
Lemma resultAcToString_lg (cfg : build_config)
  {lgac : IRLgAc} {rhossac : IRRhossAc} {rhossval : IRRhossAc_validation}
  (r : decode_results) :
  decode_type r = LG \/ decode_type r = LG2 ->
  IRAcUtils.resultAcToString cfg r = spec_resultAcToString cfg r.
Proof.
  unfold IRAcUtils.resultAcToString, spec_resultAcToString, decoder_enabled,
    frame_valid, driver_rendering.
  intros [-> | ->]; destruct (cfg DECODE_LG); reflexivity.
Qed.

(** C6, amended.  [resultAcToString] dispatches on the decoded protocol.
    For LG and LG2 it returns the driver's rendering when the driver reports
    the frame valid and the empty string when it does not; for RHOSS it
    returns the driver's rendering without asking for validity; for a
    protocol whose decoder is not compiled in it returns the empty string. *)
Theorem resultAcToString_validates_LG_only (cfg : build_config)
  {lgac : IRLgAc} {rhossac : IRRhossAc} {rhossval : IRRhossAc_validation}
  (r : decode_results) :
  IRAcUtils.resultAcToString cfg r =
    if decoder_enabled cfg (decode_type r) &&
       (frame_valid r || decode_type_eqb (decode_type r) RHOSS)
    then driver_rendering r
    else EmptyString.
Proof.
  unfold IRAcUtils.resultAcToString, decoder_enabled, frame_valid,
    driver_rendering.
  destruct (decode_type r); try reflexivity.
  - destruct (cfg DECODE_LG), (lg_isValidLgAc (value r) LG); reflexivity.
  - destruct (cfg DECODE_LG), (lg_isValidLgAc (value r) LG2); reflexivity.
  - destruct (cfg DECODE_RHOSS), (rhoss_isValid (state r)); reflexivity.
Qed.

(** ** The theorems with hypotheses, at concrete inputs *)

(** C4 at a COOLIX unit whose swing goes from off to auto: the resolved
    [swingv] is auto. *)
Lemma handleToggles_swingv_rule_witness :
  swingv (@handleToggles codes_sample coolix_turbo_on
            (Some (set_swingv swingv_t.kOff coolix_turbo_on)))
    = swingv_t.kAuto.
Proof.
  destruct (@handleToggles_swingv_rule codes_sample coolix_turbo_on
              (set_swingv swingv_t.kOff coolix_turbo_on)
              eq_refl eq_refl (or_introl eq_refl)) as [_ [_ H]].
  apply H. intros [H1 H2]. discriminate (H2 eq_refl).
Defined.

(** C5 at a COOLIX unit whose turbo goes from off to on: the resolved
    [turbo] is set. *)
Lemma handleToggles_toggle_is_xor_witness :
  get_field Fturbo
    (@handleToggles codes_sample coolix_turbo_on (Some coolix_turbo_off))
    = true.
Proof.
  exact (@handleToggles_toggle_is_xor codes_sample coolix_turbo_on
           coolix_turbo_off Fturbo eq_refl eq_refl (or_introl eq_refl)).
Defined.

(** * Further properties *)

(** ** Letter case in the parsers *)

Lemma strcasecmp_strlwr (s s' : string) :
  strlwr s = strlwr s' -> forall t, strcasecmp s t = strcasecmp s' t.
Proof.
  revert s'. induction s as [|c r IH]; intros [|c' r'] H t;
    try discriminate H.
  - reflexivity.
  - cbn [strlwr] in H. injection H as Hc Hr.
    destruct t as [|ct rt]; cbn [strcasecmp]; rewrite Hc; [reflexivity|].
    destruct (uchar (tolower c') - uchar (tolower ct) =? 0);
      [apply IH; exact Hr | reflexivity].
Qed.

(** X1.  Two strings that differ in the case of their letters only are parsed
    alike by the six parsers of enumerations and booleans, whatever the
    default. *)
Theorem parsers_ignore_case (s s' : string) :
  strlwr s = strlwr s' ->
  (forall d, strToOpmode s d = strToOpmode s' d) /\
  (forall d, strToFanspeed s d = strToFanspeed s' d) /\
  (forall d, strToSwingV s d = strToSwingV s' d) /\
  (forall d, strToSwingH s d = strToSwingH s' d) /\
  (forall d, strToCommandType s d = strToCommandType s' d) /\
  (forall d, strToBool s d = strToBool s' d).
Proof.
  intros H.
  unfold strToOpmode, strToFanspeed, strToSwingV, strToSwingH,
    strToCommandType, strToBool, STRCASECMP.
  repeat split; intros d; rewrite !(strcasecmp_strlwr s s' H); reflexivity.
Qed.

(** X1 at a concrete input. *)
Lemma parsers_ignore_case_witness :
  strToOpmode "CoOl" opmode_t.kAuto = strToOpmode "cool" opmode_t.kAuto.
Proof.
  destruct (parsers_ignore_case "CoOl" "cool" eq_refl) as [H _].
  exact (H opmode_t.kAuto).
Defined.

(** ** More on the normaliser *)

(** X4.  [cleanState] is idempotent, and the states it leaves alone are those in
    which mode off comes with power off. *)
Theorem cleanState_idempotent_fixpoints (x : state_t) :
  cleanState (cleanState x) = cleanState x /\
  (cleanState x = x <-> (mode x = opmode_t.kOff -> power x = false)).
Proof.
  split; [apply cleanState_idempotent|].
  unfold cleanState.
  destruct x as [pr mo pw md dg ce fa sv sh qu tu ec li fi cl be sl ck co st iF].
  cbn [mode power].
  destruct md; cbn; split; intros H; try reflexivity; try discriminate.
  - intros _. injection H as Hpw. now symmetry.
  - now rewrite (H eq_refl).
Qed.

(** ** More on the toggle resolver *)

Section MoreToggleFacts.

Context {codes : ModelCodes}.

(** X5.  Without a previous state, or with a previous state of another protocol
    or model, [handleToggles] changes nothing. *)
Theorem handleToggles_identity_on_other_unit (d : state_t)
  (prev : option state_t) :
  (forall p, prev = Some p ->
             protocol d <> protocol p \/ model d <> model p) ->
  handleToggles d prev = d.
Proof.
  intros H. destruct prev as [p|]; [|reflexivity].
  apply handleToggles_other_unit. now apply H.
Qed.

Lemma handleToggles_no_rule (d : state_t) (prev : option state_t) :
  ~ In (protocol d) toggle_protocols -> handleToggles d prev = d.
Proof.
  intros H. unfold handleToggles.
  destruct prev as [p|]; [|reflexivity].
  destruct (decode_type_eqb (protocol d) (protocol p) && (model d =? model p));
    [|reflexivity].
  unfold toggle_protocols in H.
  destruct (protocol d); try reflexivity; exfalso; apply H; cbn; tauto.
Qed.

(** X6.  For a protocol that is no case label of its [switch], [handleToggles]
    changes nothing, whatever the previous state. *)
Theorem handleToggles_identity_without_rule (d : state_t)
  (prev : option state_t) :
  ~ In (protocol d) toggle_protocols -> handleToggles d prev = d.
Proof. apply handleToggles_no_rule. Qed.

Lemma handleToggles_model (d : state_t) (prev : option state_t) :
  model (handleToggles d prev) = model d.
Proof.
  unfold handleToggles, toggle_swingv.
  destruct prev as [p|]; [|reflexivity].
  destruct (decode_type_eqb (protocol d) (protocol p) && (model d =? model p));
    [|reflexivity].
  destruct (protocol d); split_conditionals; reflexivity.
Qed.

(** X7.  [handleToggles] never changes the protocol, the model, the mode, the
    temperatures and their unit, the fan speed, the horizontal swing,
    quiet, filter, the clock, the command or iFeel. *)
Theorem handleToggles_frame (d : state_t) (prev : option state_t) :
  let r := handleToggles d prev in
  protocol r = protocol d /\ model r = model d /\ mode r = mode d /\
  degrees r = degrees d /\ celsius r = celsius d /\
  fanspeed r = fanspeed d /\ swingh r = swingh d /\ quiet r = quiet d /\
  filter r = filter d /\ clock r = clock d /\ command r = command d /\
  sensorTemperature r = sensorTemperature d /\ iFeel r = iFeel d.
Proof.
  cbv zeta. unfold handleToggles, toggle_swingv.
  destruct prev as [p|]; [|repeat split].
  destruct (decode_type_eqb (protocol d) (protocol p) && (model d =? model p));
    [|repeat split].
  destruct (protocol d) eqn:E; split_conditionals; cbn;
    repeat split; exact E.
Qed.

(** X8.  The rewrite table is exact: a boolean field that the table does not
    list for the protocol and model is not changed, [swingv] is not changed
    outside the protocols of the swingv rule, and [sleep] is not changed
    outside COOLIX and TRANSCOLD. *)
Theorem handleToggles_changes_nothing_else (d : state_t)
  (prev : option state_t) :
  (forall f, ~ In f (spec_toggle_fields (protocol d) (model d)) ->
             get_field f (handleToggles d prev) = get_field f d) /\
  (~ In (protocol d) spec_swingv_protocols ->
   swingv (handleToggles d prev) = swingv d) /\
  (~ In (protocol d) spec_sleep_protocols ->
   sleep (handleToggles d prev) = sleep d).
Proof.
  unfold handleToggles, toggle_swingv, spec_toggle_fields,
    spec_swingv_protocols, spec_sleep_protocols.
  destruct prev as [p|]; [|repeat split].
  destruct (decode_type_eqb (protocol d) (protocol p) && (model d =? model p));
    [|repeat split].
  split; [|split].
  - intros f H.
    destruct (protocol d); try reflexivity;
      try (destruct (model d =? KKG29AC1));
      try (destruct (model d =? kPanasonicCkp));
      destruct f; split_conditionals; try reflexivity;
      exfalso; apply H; cbn; tauto.
  - intros H.
    destruct (protocol d); split_conditionals; try reflexivity;
      exfalso; apply H; cbn; tauto.
  - intros H.
    destruct (protocol d); split_conditionals; try reflexivity;
      exfalso; apply H; cbn; tauto.
Qed.

(** X9.  For COOLIX and TRANSCOLD with the same protocol and model, the resolved
    [sleep] is 0 or -1, and it is 0 exactly when one of the desired and the
    previous sleep is negative and the other is not. *)
Theorem handleToggles_sleep_rule (d p : state_t) :
  protocol d = protocol p -> model d = model p ->
  In (protocol d) spec_sleep_protocols ->
  (sleep (handleToggles d (Some p)) = 0 \/
   sleep (handleToggles d (Some p)) = -1) /\
  (sleep (handleToggles d (Some p)) = 0 <->
   ~ (0 <= sleep d <-> 0 <= sleep p)).
Proof.
  intros Hp Hm Hin. rewrite (handleToggles_sleep d p Hp Hm Hin).
  destruct (Z.geb_spec (sleep d) 0) as [Hd|Hd],
    (Z.geb_spec (sleep p) 0) as [Hq|Hq]; cbn;
    (split; [auto|]); split; intros H'; try discriminate; try reflexivity;
    intuition lia.
Qed.

(** X10.  Resolving twice against the same previous state gives every toggled
    boolean back: the toggle is its own inverse. *)
Theorem handleToggles_toggle_involutive (d p : state_t) (f : bool_field) :
  protocol d = protocol p -> model d = model p ->
  In f (spec_toggle_fields (protocol d) (model d)) ->
  get_field f (handleToggles (handleToggles d (Some p)) (Some p)) =
  get_field f d.
Proof.
  intros Hp Hm Hin.
  pose proof (handleToggles_protocol d (Some p)) as Hp'.
  pose proof (handleToggles_model d (Some p)) as Hm'.
  rewrite (handleToggles_field (handleToggles d (Some p)) p f).
  - rewrite (handleToggles_field d p f Hp Hm Hin).
    now destruct (get_field f d), (get_field f p).
  - now rewrite Hp'.
  - now rewrite Hm'.
  - now rewrite Hp', Hm'.
Qed.

(** X11.  Of the previous state, [handleToggles] reads the protocol, the model,
    the six toggled booleans, whether [swingv] is off and whether [sleep]
    is negative, and nothing else. *)
Theorem handleToggles_reads_only_rewrite_fields (d p p' : state_t) :
  protocol p = protocol p' -> model p = model p' ->
  power p = power p' -> turbo p = turbo p' -> econo p = econo p' ->
  light p = light p' -> clean p = clean p' -> beep p = beep p' ->
  (swingv p = swingv_t.kOff <-> swingv p' = swingv_t.kOff) ->
  (0 <= sleep p <-> 0 <= sleep p') ->
  handleToggles d (Some p) = handleToggles d (Some p').
Proof.
  intros Hpr Hmo Hpw Htu Hec Hli Hcl Hbe Hsv Hsl.
  assert (Esv : swingv_t.eqb (swingv p) swingv_t.kOff =
                swingv_t.eqb (swingv p') swingv_t.kOff).
  { rewrite <- !swingv_eqb_kOff in Hsv.
    destruct (swingv_t.eqb (swingv p) swingv_t.kOff),
      (swingv_t.eqb (swingv p') swingv_t.kOff); intuition congruence. }
  assert (Esl : (sleep p >=? 0) = (sleep p' >=? 0)).
  { destruct (Z.geb_spec (sleep p) 0), (Z.geb_spec (sleep p') 0);
      try reflexivity; lia. }
  unfold handleToggles, toggle_swingv.
  now rewrite Hpr, Hmo, Hpw, Htu, Hec, Hli, Hcl, Hbe, Esv, Esl.
Qed.

End MoreToggleFacts.

(** ** More on the dispatcher *)

Lemma filter_map_nil {A B : Type} (f : A -> B) (g : B -> bool)
  (l : list A) :
  (forall a, g (f a) = false) -> List.filter g (map f l) = [].
Proof.
  intros H. induction l as [|a l IH]; cbn; [reflexivity|].
  now rewrite H.
Qed.

Lemma flat_map_map_single {A B C : Type} (f : A -> B) (g : B -> list C)
  (h : A -> C) (l : list A) :
  (forall a, g (f a) = [h a]) -> flat_map g (map f l) = map h l.
Proof.
  intros H. induction l as [|a l IH]; cbn; [reflexivity|].
  now rewrite H, IH.
Qed.

Section MoreDispatcherFacts.

Variable cfg : build_config.
Context {codes : ModelCodes} {lgac : IRLgAc} {rhossac : IRRhossAc}.

Lemma accepted_no_rule (desired : state_t) :
  protocol desired = LG \/ protocol desired = LG2 \/ protocol desired = RHOSS ->
  ~ In (protocol (cleanState desired)) toggle_protocols.
Proof.
  rewrite cleanState_protocol. unfold toggle_protocols.
  intros [-> | [-> | ->]] H; cbn in H;
    repeat (destruct H as [H|H]; [discriminate H|]); exact H.
Qed.

Lemma sendAc_send_accepted (desired : state_t) (prev : option state_t) :
  protocol desired = LG \/ protocol desired = LG2 \/ protocol desired = RHOSS ->
  sendAc_send desired prev = cleanState desired.
Proof.
  intros H. unfold sendAc_send.
  apply handleToggles_no_rule. now apply accepted_no_rule.
Qed.

(** The LG arm, spelled out. *)
Lemma sendAc_lg (self : IRac) (desired : state_t) (prev : option state_t) :
  protocol desired = LG \/ protocol desired = LG2 -> cfg SEND_LG = true ->
  sendAc cfg self desired prev =
  (true,
   Some (UseIRLgAc (_pin self) (_inverted self) (_modulation self)
           (lg (model desired) (power (cleanState desired)) (mode desired)
               (degrees desired) (fanspeed desired) (swingv desired)
               (prev_swingv_of prev) (swingh desired) (light desired)))).
Proof.
  intros Hp Hon. unfold sendAc.
  rewrite sendAc_send_accepted by tauto.
  rewrite cleanState_protocol.
  assert (Hc : cleanState desired = set_power (power (cleanState desired)) desired).
  { unfold cleanState.
    destruct (opmode_t.eqb (mode desired) opmode_t.kOff);
      destruct desired; reflexivity. }
  destruct Hp as [Hp | Hp]; rewrite Hp, Hon; rewrite Hc at 1 3 4 5 6 7 8 9;
    reflexivity.
Qed.

(** The RHOSS arm, spelled out. *)
Lemma sendAc_rhoss (self : IRac) (desired : state_t) (prev : option state_t) :
  protocol desired = RHOSS -> cfg SEND_RHOSS = true ->
  sendAc cfg self desired prev =
  (true,
   Some (UseIRRhossAc (_pin self) (_inverted self) (_modulation self)
           (rhoss (power (cleanState desired)) (mode desired)
                  (sendAc_degC desired) (fanspeed desired)
                  (swingv desired)))).
Proof.
  intros Hp Hon. unfold sendAc.
  rewrite sendAc_send_accepted by tauto.
  rewrite cleanState_protocol, Hp, Hon.
  unfold cleanState.
  destruct (opmode_t.eqb (mode desired) opmode_t.kOff); reflexivity.
Qed.

Lemma sendAc_accepted_cases (self : IRac) (desired : state_t)
  (prev : option state_t) :
  fst (sendAc cfg self desired prev) = true ->
  ((protocol desired = LG \/ protocol desired = LG2) /\ cfg SEND_LG = true) \/
  (protocol desired = RHOSS /\ cfg SEND_RHOSS = true).
Proof. apply sendAc_true_iff. Qed.

Lemma power_cleanState (x : state_t) :
  power (cleanState x) =
    match mode x with
    | opmode_t.kOff => false
    | _ => power x
    end.
Proof.
  unfold cleanState. destruct x; cbn. destruct mode0; reflexivity.
Qed.

End MoreDispatcherFacts.

Section DispatcherTheorems.

Variable cfg : build_config.
Context {codes : ModelCodes} {lgac : IRLgAc} {rhossac : IRRhossAc}.

Lemma lg_begins_and_sends (model : Z) (on : bool) (mode : opmode_t.t)
  (degrees : float) (fan : fanspeed_t.t) (swingv swingv_prev : swingv_t.t)
  (swingh : swingh_t.t) (light : bool) :
  exists mid,
    lg model on mode degrees fan swingv swingv_prev swingh light =
      LgBegin :: mid ++ [LgSend] /\
    ~ In LgBegin mid /\ ~ In LgSend mid.
Proof.
  unfold lg.
  exists ([ LgSetModel model; LgSetPower on;
            LgSetMode (lg_convertMode mode); LgSetTemp degrees;
            LgSetFan (lg_convertFan fan);
            LgSetSwingV (lg_convertSwingV swingv_prev); LgUpdateSwingPrev;
            LgSetSwingV (lg_convertSwingV swingv) ]
          ++ map (fun vane =>
                    LgSetVaneSwingV (Z.of_nat vane)
                      (lg_convertVaneSwingV swingv))
                 (seq 0 kLgAcSwingVMaxVanes)
          ++ (if (model =? LG6711A20083V) &&
                 negb (Bool.eqb (swingv_t.eqb swingv swingv_t.kOff)
                                (swingv_t.eqb swingv_prev swingv_t.kOff))
              then [LgSetSwingV kLgAcSwingVToggle] else [])
          ++ [ LgSetSwingH (negb (swingh_t.eqb swingh swingh_t.kOff));
               LgSetLight light ]).
  split; [cbn [app]; rewrite <- !app_assoc; reflexivity|].
  split; intros H; rewrite !in_app_iff, in_map_iff in H;
    destruct H as [H|[[v [H _]]|[H|H]]];
    try discriminate H;
    try match type of H with
        | context [if ?c then _ else _] => destruct c
        end;
    cbn in H; intuition discriminate.
Qed.

Lemma rhoss_begins_and_sends (on : bool) (mode : opmode_t.t)
  (degrees : float) (fan : fanspeed_t.t) (swing : swingv_t.t) :
  exists mid,
    rhoss on mode degrees fan swing = RhossBegin :: mid ++ [RhossSend] /\
    ~ In RhossBegin mid /\ ~ In RhossSend mid.
Proof.
  unfold rhoss.
  exists [ RhossSetPower on; RhossSetMode (rhoss_convertMode mode);
           RhossSetSwing (negb (swingv_t.eqb swing swingv_t.kOff));
           RhossSetTemp degrees; RhossSetFan (rhoss_convertFan fan) ].
  split; [reflexivity|].
  split; intros H; cbn in H; intuition discriminate.
Qed.

(** X12.  The structured [sendAc] returns true exactly when it has built a
    driver and driven it: the driver is built on the pin, the polarity and
    the modulation of the [IRac] object, its first call is [begin()], its
    last call is [send()], and neither is called in between.  When
    [sendAc] returns false no driver is built. *)
Theorem sendAc_true_iff_driver_used (self : IRac) (desired : state_t)
  (prev : option state_t) :
  match snd (sendAc cfg self desired prev) with
  | Some (UseIRLgAc pin inverted modulation calls) =>
      fst (sendAc cfg self desired prev) = true /\
      pin = _pin self /\ inverted = _inverted self /\
      modulation = _modulation self /\
      exists mid, calls = LgBegin :: mid ++ [LgSend] /\
                  ~ In LgBegin mid /\ ~ In LgSend mid
  | Some (UseIRRhossAc pin inverted modulation calls) =>
      fst (sendAc cfg self desired prev) = true /\
      pin = _pin self /\ inverted = _inverted self /\
      modulation = _modulation self /\
      exists mid, calls = RhossBegin :: mid ++ [RhossSend] /\
                  ~ In RhossBegin mid /\ ~ In RhossSend mid
  | None => fst (sendAc cfg self desired prev) = false
  end.
Proof.
  unfold sendAc.
  destruct (protocol (sendAc_send desired prev));
    try destruct (cfg SEND_LG); try destruct (cfg SEND_RHOSS);
    cbn [fst snd]; try reflexivity;
    (do 4 (split; [reflexivity|]));
    first [apply lg_begins_and_sends | apply rhoss_begins_and_sends].
Qed.

(** X13.  Whatever the build, a protocol that [sendAc] accepts is one that
    [isProtocolSupported] reports. *)
Theorem sendAc_accepts_only_supported (self : IRac) (desired : state_t)
  (prev : option state_t) :
  fst (sendAc cfg self desired prev) = true ->
  isProtocolSupported cfg (protocol desired) = true.
Proof. apply sendAc_true_supported. Qed.

(** X14.  In a build that switches on no sender but LG and RHOSS, [sendAc]
    returns false exactly for the protocols that [isProtocolSupported]
    does not report. *)
Theorem sendAc_refuses_exactly_unsupported (self : IRac) (desired : state_t)
  (prev : option state_t) :
  (forall m, cfg m = true ->
             m = SEND_LG \/ m = SEND_RHOSS \/ m = DECODE_LG \/ m = DECODE_RHOSS) ->
  (fst (sendAc cfg self desired prev) = false <->
   isProtocolSupported cfg (protocol desired) = false).
Proof. apply sendAc_false_iff_unsupported. Qed.

(** X15.  When [sendAc] accepts a state, no toggle is resolved: the state it
    dispatches on is [cleanState desired], and the one [setPower] call tells
    the driver "off" when the mode is off and the desired power
    otherwise. *)
Theorem sendAc_sends_cleaned_state (self : IRac) (desired : state_t)
  (prev : option state_t) :
  fst (sendAc cfg self desired prev) = true ->
  sendAc_send desired prev = cleanState desired /\
  powers_handed (snd (sendAc cfg self desired prev)) =
    [match mode desired with
     | opmode_t.kOff => false
     | _ => power desired
     end].
Proof.
  intros H. apply sendAc_accepted_cases in H.
  destruct H as [[Hp Hon] | [Hp Hon]].
  - split; [apply sendAc_send_accepted; tauto|].
    rewrite (sendAc_lg cfg self desired prev Hp Hon).
    unfold powers_handed, lg; cbn [snd lg_calls_of rhoss_calls_of].
    rewrite !flat_map_app, flat_map_map_nil by reflexivity.
    rewrite power_cleanState.
    split_conditionals; reflexivity.
  - split; [apply sendAc_send_accepted; tauto|].
    rewrite (sendAc_rhoss cfg self desired prev Hp Hon).
    cbn. now rewrite power_cleanState.
Qed.

(** X16.  The one temperature handed to a driver: the RHOSS driver gets the
    desired degrees converted to Celsius when the state is in Fahrenheit;
    the LG driver gets the desired degrees as they are, in either unit. *)
Theorem sendAc_temperature_handed (self : IRac) (desired : state_t)
  (prev : option state_t) :
  fst (sendAc cfg self desired prev) = true ->
  temps_handed (snd (sendAc cfg self desired prev)) =
    [if decode_type_eqb (protocol desired) RHOSS
     then (if celsius desired then degrees desired
           else fahrenheitToCelsius (degrees desired))
     else degrees desired].
Proof.
  intros H. apply sendAc_accepted_cases in H.
  destruct H as [[Hp Hon] | [Hp Hon]].
  - rewrite (sendAc_lg_temp cfg self desired prev Hp Hon).
    destruct Hp as [-> | ->]; reflexivity.
  - rewrite (sendAc_rhoss_temp cfg self desired prev Hp Hon), Hp.
    reflexivity.
Qed.

(** X17.  The LG arm sets every vane once, in the order 0, 1, ... up to the
    number of vanes, each to the position converted from the desired
    [swingv]. *)
Theorem sendAc_lg_sets_every_vane (self : IRac) (desired : state_t)
  (prev : option state_t) :
  protocol desired = LG \/ protocol desired = LG2 -> cfg SEND_LG = true ->
  vane_calls (lg_calls_of (snd (sendAc cfg self desired prev))) =
    map (fun vane => (Z.of_nat vane, lg_convertVaneSwingV (swingv desired)))
        (seq 0 kLgAcSwingVMaxVanes).
Proof.
  intros Hp Hon. rewrite (sendAc_lg cfg self desired prev Hp Hon).
  cbn [snd lg_calls_of]. unfold vane_calls, lg.
  rewrite !flat_map_app.
  rewrite (flat_map_map_single _ _
             (fun vane => (Z.of_nat vane,
                           lg_convertVaneSwingV (swingv desired))))
    by reflexivity.
  split_conditionals; cbn; now rewrite app_nil_r.
Qed.

(** X18.  The LG arm calls [setSwingV] with the converted previous swing,
    then with the converted desired swing, and then, as its last
    [setSwingV], with the toggle code [kLgAcSwingVToggle] exactly when the
    model is LG6711A20083V and one of the desired and the previous swing is
    off and the other is not; otherwise there is no third call.  A null
    previous state counts as swing off. *)
Theorem sendAc_lg_swing_toggle_iff (self : IRac) (desired : state_t)
  (prev : option state_t) :
  protocol desired = LG \/ protocol desired = LG2 -> cfg SEND_LG = true ->
  let args :=
    setSwingV_args (lg_calls_of (snd (sendAc cfg self desired prev))) in
  let two :=
    [ lg_convertSwingV (prev_swingv_of prev);
      lg_convertSwingV (swingv desired) ] in
  (args = two \/ args = two ++ [kLgAcSwingVToggle]) /\
  (args = two ++ [kLgAcSwingVToggle] <->
   model desired = LG6711A20083V /\
   ~ (swingv desired = swingv_t.kOff <->
      prev_swingv_of prev = swingv_t.kOff)).
Proof.
  intros Hp Hon. rewrite (sendAc_lg cfg self desired prev Hp Hon).
  cbn [snd lg_calls_of]. unfold setSwingV_args, lg.
  rewrite !flat_map_app, flat_map_map_nil by reflexivity.
  rewrite <- xorb_eqb_kOff.
  destruct (Z.eqb_spec (model desired) LG6711A20083V) as [Hm|Hm];
    destruct (swingv_t.eqb (swingv desired) swingv_t.kOff),
      (swingv_t.eqb (prev_swingv_of prev) swingv_t.kOff);
    cbn; (split; [auto|]); split; intros H;
    try discriminate; try reflexivity; try tauto;
    destruct H as [H1 H2]; congruence.
Qed.

(** X19.  Sending to RHOSS depends on the desired power, mode, degrees, unit,
    fan speed and on whether [swingv] is off, and on nothing else: not on
    the other fields, not on the previous state. *)
Theorem sendAc_rhoss_reads (self : IRac) (d d' : state_t)
  (prev prev' : option state_t) :
  protocol d = RHOSS -> protocol d' = RHOSS ->
  power d = power d' -> mode d = mode d' -> degrees d = degrees d' ->
  celsius d = celsius d' -> fanspeed d = fanspeed d' ->
  (swingv d = swingv_t.kOff <-> swingv d' = swingv_t.kOff) ->
  sendAc cfg self d prev = sendAc cfg self d' prev'.
Proof.
  intros Hp Hp' Hpw Hmd Hdg Hce Hfa Hsv.
  assert (Esv : swingv_t.eqb (swingv d) swingv_t.kOff =
                swingv_t.eqb (swingv d') swingv_t.kOff).
  { rewrite <- !swingv_eqb_kOff in Hsv.
    destruct (swingv_t.eqb (swingv d) swingv_t.kOff),
      (swingv_t.eqb (swingv d') swingv_t.kOff); intuition congruence. }
  destruct (cfg SEND_RHOSS) eqn:Hon.
  - rewrite (sendAc_rhoss cfg self d prev Hp Hon),
      (sendAc_rhoss cfg self d' prev' Hp' Hon).
    unfold rhoss, sendAc_degC.
    now rewrite !power_cleanState, Hpw, Hmd, Hdg, Hce, Hfa, Esv.
  - unfold sendAc. rewrite !sendAc_send_protocol, Hp, Hp', Hon. reflexivity.
Qed.

(** X20.  Sending to LG depends on the desired model, power, mode, degrees, fan
    speed, [swingv], on whether [swingh] is off, on light and on the
    previous [swingv] (off for a null pointer), and on nothing else; in
    particular not on the temperature unit. *)
Theorem sendAc_lg_reads (self : IRac) (d d' : state_t)
  (prev prev' : option state_t) :
  protocol d = protocol d' ->
  protocol d = LG \/ protocol d = LG2 ->
  model d = model d' -> power d = power d' -> mode d = mode d' ->
  degrees d = degrees d' -> fanspeed d = fanspeed d' ->
  swingv d = swingv d' ->
  (swingh d = swingh_t.kOff <-> swingh d' = swingh_t.kOff) ->
  light d = light d' ->
  prev_swingv_of prev = prev_swingv_of prev' ->
  sendAc cfg self d prev = sendAc cfg self d' prev'.
Proof.
  intros Hpp Hp Hmo Hpw Hmd Hdg Hfa Hsv Hsh Hli Hprev.
  assert (Hp' : protocol d' = LG \/ protocol d' = LG2) by (now rewrite <- Hpp).
  assert (Esh : swingh_t.eqb (swingh d) swingh_t.kOff =
                swingh_t.eqb (swingh d') swingh_t.kOff).
  { rewrite <- !swingh_eqb_eq in Hsh.
    destruct (swingh_t.eqb (swingh d) swingh_t.kOff),
      (swingh_t.eqb (swingh d') swingh_t.kOff); intuition congruence. }
  destruct (cfg SEND_LG) eqn:Hon.
  - rewrite (sendAc_lg cfg self d prev Hp Hon),
      (sendAc_lg cfg self d' prev' Hp' Hon).
    unfold lg.
    now rewrite !power_cleanState, Hmo, Hpw, Hmd, Hdg, Hfa, Hsv, Esh, Hli,
      Hprev.
  - unfold sendAc. rewrite !sendAc_send_protocol.
    destruct Hp as [Hp|Hp], Hp' as [Hp'|Hp']; rewrite Hp, Hp', Hon;
      reflexivity.
Qed.

(** X21.  The flat overload returns true for LG and LG2 when the LG sender is
    compiled in and for RHOSS when the RHOSS sender is, and for no other
    vendor; through it an LG unit is never sent the swing toggle, because
    the packaged state is its own previous state. *)
Theorem sendAc_flat_accepts_and_never_toggles (self : IRac)
  (vendor : decode_type_t) (model : Z) (power : bool) (mode : opmode_t.t)
  (degrees : float) (celsius : bool) (fan : fanspeed_t.t)
  (swingv : swingv_t.t) (swingh : swingh_t.t)
  (quiet turbo econo light filter clean beep : bool) (sleep clock : Z) :
  let r :=
    sendAc_flat cfg self vendor model power mode degrees celsius fan swingv
      swingh quiet turbo econo light filter clean beep sleep clock in
  (fst r = true <->
   ((vendor = LG \/ vendor = LG2) /\ cfg SEND_LG = true) \/
   (vendor = RHOSS /\ cfg SEND_RHOSS = true)) /\
  ((vendor = LG \/ vendor = LG2) -> cfg SEND_LG = true ->
   count_setSwingV (lg_calls_of (snd r)) = 2%nat).
Proof.
  cbv zeta. unfold sendAc_flat. split.
  - rewrite sendAc_true_iff. reflexivity.
  - intros Hp Hon.
    rewrite sendAc_lg by assumption.
    cbn [snd lg_calls_of]. unfold count_setSwingV, lg.
    rewrite !filter_app, filter_map_nil by reflexivity.
    cbn [prev_swingv_of initState stdAc.swingv stdAc.model].
    rewrite Bool.eqb_reflx, andb_false_r. reflexivity.
Qed.

End DispatcherTheorems.

(** ** Comparing states, continued *)

Lemma has_nan_set_clock (k : Z) (a : state_t) :
  has_nan (set_clock k a) = has_nan a.
Proof. reflexivity. Qed.

Lemma cmpStates_false_iff_same (a b : state_t) :
  cmpStates a b = false <->
  set_clock 0 a = set_clock 0 b /\ has_nan a = false.
Proof.
  rewrite cmpStates_false_iff.
  destruct a, b; unfold set_clock; cbn; split; intros [H N];
    (split; [|exact N]); injection H; intros; subst; reflexivity.
Qed.

Lemma cmpStates_self (a : state_t) : cmpStates a a = has_nan a.
Proof.
  destruct (cmpStates a a) eqn:C.
  - destruct (has_nan a) eqn:N; [reflexivity|]. exfalso.
    assert (C' : cmpStates a a = false)
      by (apply cmpStates_false_iff_same; split; [reflexivity | exact N]).
    congruence.
  - apply cmpStates_false_iff_same in C. destruct C as [_ N]. now rewrite N.
Qed.

Lemma cmpStates_false_sym (a b : state_t) :
  cmpStates a b = false -> cmpStates b a = false.
Proof.
  rewrite !cmpStates_false_iff_same. intros [E N]. split; [now symmetry|].
  now rewrite <- (has_nan_set_clock 0 b), <- E, has_nan_set_clock.
Qed.

(** X22.  "[cmpStates] finds no difference" is symmetric and transitive,
    and it holds between a state and itself exactly when neither
    temperature of the state is NaN: on states without NaN it is an
    equivalence relation. *)
Theorem cmpStates_equivalence (a b c : state_t) :
  cmpStates a a = has_nan a /\
  cmpStates a b = cmpStates b a /\
  (cmpStates a b = false -> cmpStates b c = false -> cmpStates a c = false).
Proof.
  split; [apply cmpStates_self|]. split.
  - destruct (cmpStates a b) eqn:Hab, (cmpStates b a) eqn:Hba;
      try reflexivity.
    + apply cmpStates_false_sym in Hba. congruence.
    + apply cmpStates_false_sym in Hab. congruence.
  - rewrite !cmpStates_false_iff_same. intros [E1 N1] [E2 N2].
    split; [congruence | exact N1].
Qed.

(** ** The remembered state *)

(** X23.  After [markAsSent] the previous state is the current one, and
    [hasStateChanged] answers false, unless a temperature of the current
    state is NaN: then it answers true.  On a freshly built [IRac] it
    answers false. *)
Theorem markAsSent_clears_change (self : IRac) (pin : Z)
  (inverted use_modulation : bool) :
  getStatePrev (markAsSent self) = getState self /\
  getState (markAsSent self) = getState self /\
  hasStateChanged (markAsSent self) = has_nan (next self) /\
  hasStateChanged (IRac_new pin inverted use_modulation) = false.
Proof.
  split; [reflexivity|]. split; [reflexivity|].
  unfold hasStateChanged, IRac_new; cbn [markAsSent next _prev].
  split; [exact (cmpStates_self _) | reflexivity].
Qed.

Section SentFacts.

Variable cfg : build_config.
Context {codes : ModelCodes} {lgac : IRLgAc} {rhossac : IRRhossAc}.

Lemma sendAc_void_object (self : IRac) :
  snd (fst (sendAc_void cfg self)) =
    if fst (sendAc cfg self (next self) (Some (_prev self)))
    then markAsSent self else self.
Proof.
  unfold sendAc_void.
  destruct (sendAc cfg self (next self) (Some (_prev self))) as [[|] used];
    reflexivity.
Qed.

Lemma sendAc_void_used (self : IRac) :
  snd (sendAc_void cfg self) =
    snd (sendAc cfg self (next self) (Some (_prev self))).
Proof.
  unfold sendAc_void.
  destruct (sendAc cfg self (next self) (Some (_prev self))) as [[|] used];
    reflexivity.
Qed.

(** X24.  After a successful no-argument [sendAc], [hasStateChanged]
    answers false, unless a temperature of [next] is NaN: then it answers
    true.  A refused call leaves the whole object as it was.  In both cases
    the pin, the polarity, the modulation and [next] are kept. *)
Theorem sendAc_void_outcome (self : IRac) :
  let ok := fst (fst (sendAc_void cfg self)) in
  let self' := snd (fst (sendAc_void cfg self)) in
  (ok = true -> hasStateChanged self' = has_nan (next self)) /\
  (ok = false -> self' = self) /\
  _pin self' = _pin self /\ _inverted self' = _inverted self /\
  _modulation self' = _modulation self /\ next self' = next self.
Proof.
  cbv zeta. rewrite sendAc_void_result, sendAc_void_object.
  destruct (fst (sendAc cfg self (next self) (Some (_prev self))));
    repeat split; try discriminate; try reflexivity.
  intros _. unfold hasStateChanged. cbn [markAsSent next _prev].
  exact (cmpStates_self (next self)).
Qed.

Lemma sendAc_result (self : IRac) (desired : state_t)
  (prev : option state_t) :
  fst (sendAc cfg self desired prev) =
    match protocol desired with
    | LG | LG2 => cfg SEND_LG
    | RHOSS => cfg SEND_RHOSS
    | _ => false
    end.
Proof.
  unfold sendAc. rewrite sendAc_send_protocol.
  destruct (protocol desired); try reflexivity;
    try (destruct (cfg SEND_LG); reflexivity);
    destruct (cfg SEND_RHOSS); reflexivity.
Qed.

(** X25.  Calling the no-argument [sendAc] again right away gives the same
    answer and leaves the object as the first call left it. *)
Theorem sendAc_void_twice (self : IRac) :
  let self' := snd (fst (sendAc_void cfg self)) in
  fst (fst (sendAc_void cfg self')) = fst (fst (sendAc_void cfg self)) /\
  snd (fst (sendAc_void cfg self')) = self'.
Proof.
  cbv zeta.
  assert (Hobj : snd (fst (sendAc_void cfg self)) =
                 if fst (fst (sendAc_void cfg self))
                 then markAsSent self else self).
  { now rewrite sendAc_void_object, sendAc_void_result. }
  assert (Hres : forall s, fst (fst (sendAc_void cfg s)) =
                           match protocol (next s) with
                           | LG | LG2 => cfg SEND_LG
                           | RHOSS => cfg SEND_RHOSS
                           | _ => false
                           end).
  { intros s. now rewrite sendAc_void_result, sendAc_result. }
  rewrite Hobj.
  destruct (fst (fst (sendAc_void cfg self))) eqn:E.
  - assert (E' : fst (fst (sendAc_void cfg (markAsSent self))) = true).
    { rewrite Hres. cbn [markAsSent next]. now rewrite <- Hres. }
    split; [exact E'|].
    now rewrite sendAc_void_object, <- sendAc_void_result, E'.
  - split; [exact E | exact Hobj].
Qed.

(** X26.  After a successful no-argument [sendAc] to an LG unit, sending again
    without touching [next] never sends the swing toggle. *)
Theorem sendAc_void_again_no_swing_toggle (self : IRac) :
  protocol (next self) = LG \/ protocol (next self) = LG2 ->
  cfg SEND_LG = true ->
  let self' := snd (fst (sendAc_void cfg self)) in
  fst (fst (sendAc_void cfg self)) = true /\
  fst (fst (sendAc_void cfg self')) = true /\
  count_setSwingV (lg_calls_of (snd (sendAc_void cfg self'))) = 2%nat.
Proof.
  intros Hp Hon. cbv zeta.
  assert (H1 : fst (sendAc cfg self (next self) (Some (_prev self))) = true).
  { apply sendAc_true_iff. left. split; assumption. }
  assert (Hobj : snd (fst (sendAc_void cfg self)) = markAsSent self).
  { now rewrite sendAc_void_object, H1. }
  rewrite Hobj, !sendAc_void_result, sendAc_void_used.
  cbn [markAsSent next _prev].
  split; [exact H1|]. split.
  - apply sendAc_true_iff. left. split; assumption.
  - rewrite sendAc_lg by assumption.
    cbn [snd lg_calls_of]. unfold count_setSwingV, lg.
    rewrite !filter_app, filter_map_nil by reflexivity.
    cbn [prev_swingv_of].
    rewrite Bool.eqb_reflx, andb_false_r. reflexivity.
Qed.

End SentFacts.

(** ** Decoded frames to common states *)

Section DecodedFacts.

Variable cfg : build_config.
Context {lgac : IRLgAc} {rhossac : IRRhossAc}
        {lgcommon : IRLgAc_toCommon} {rhosscommon : IRRhossAc_toCommon}.

(** X27.  [decodeToState] succeeds exactly when neither pointer is null and the
    frame is an LG or LG2 frame that the driver finds valid, with the LG
    decoder compiled in, or a RHOSS frame, valid or not, with the RHOSS
    decoder compiled in.  When it fails, the state behind [result] is left
    as it was. *)
Theorem decodeToState_outcome (decode : option decode_results)
  (result prev : option state_t) :
  (fst (IRAcUtils.decodeToState cfg decode result prev) = true <->
   exists dec res,
     decode = Some dec /\ result = Some res /\
     decoder_enabled cfg (decode_type dec) = true /\
     (decode_type dec = RHOSS \/
      lg_isValidLgAc (value dec) (decode_type dec) = true)) /\
  (fst (IRAcUtils.decodeToState cfg decode result prev) = false ->
   snd (IRAcUtils.decodeToState cfg decode result prev) = result).
Proof.
  unfold IRAcUtils.decodeToState, decoder_enabled.
  destruct decode as [dec|], result as [res|];
    try (cbn; split; [split; [discriminate | intros (d & r & H1 & H2 & _);
                                            discriminate] | reflexivity]).
  split.
  - split.
    + intros H. exists dec, res.
      destruct (decode_type dec) eqn:E; try discriminate H.
      * destruct (cfg DECODE_LG); [|discriminate H].
        destruct (lg_isValidLgAc (value dec) LG); [auto|discriminate H].
      * destruct (cfg DECODE_LG); [|discriminate H].
        destruct (lg_isValidLgAc (value dec) LG2); [auto|discriminate H].
      * destruct (cfg DECODE_RHOSS); [auto|discriminate H].
    + intros (d & r & Hd & Hr & Hen & Hv).
      injection Hd as <-. injection Hr as <-.
      destruct (decode_type dec) eqn:E; try discriminate Hen;
        rewrite Hen; try reflexivity;
        destruct Hv as [Hv|Hv]; try discriminate Hv; now rewrite Hv.
  - destruct (decode_type dec); try reflexivity.
    + destruct (cfg DECODE_LG), (lg_isValidLgAc (value dec) LG);
        cbn; try reflexivity; discriminate.
    + destruct (cfg DECODE_LG), (lg_isValidLgAc (value dec) LG2);
        cbn; try reflexivity; discriminate.
    + destruct (cfg DECODE_RHOSS); cbn; try reflexivity; discriminate.
Qed.

(** X28.  What a successful [decodeToState] stores: the LG driver's common state,
    computed with the previous state, or the RHOSS driver's, in which the
    previous state plays no part. *)
Theorem decodeToState_stores (dec : decode_results) (res : state_t)
  (prev : option state_t) :
  fst (IRAcUtils.decodeToState cfg (Some dec) (Some res) prev) = true ->
  snd (IRAcUtils.decodeToState cfg (Some dec) (Some res) prev) =
    Some (if decode_type_eqb (decode_type dec) RHOSS
          then rhoss_toCommon (state dec)
          else lg_toCommon (value dec) (decode_type dec) prev).
Proof.
  unfold IRAcUtils.decodeToState.
  destruct (decode_type dec); try discriminate.
  - destruct (cfg DECODE_LG), (lg_isValidLgAc (value dec) LG); cbn;
      try discriminate; reflexivity.
  - destruct (cfg DECODE_LG), (lg_isValidLgAc (value dec) LG2); cbn;
      try discriminate; reflexivity.
  - destruct (cfg DECODE_RHOSS); cbn; try discriminate; reflexivity.
Qed.


End DecodedFacts.

(** ** Model names and numbers *)

Lemma atoi_char_tolower (c : ascii) :
  isspace (tolower c) = isspace c /\
  isdigit (tolower c) = isdigit c /\
  Ascii.eqb (tolower c) "-" = Ascii.eqb c "-" /\
  Ascii.eqb (tolower c) "+" = Ascii.eqb c "+" /\
  (isdigit c = true -> tolower c = c).
Proof.
  destruct c as [[] [] [] [] [] [] [] []];
    repeat split; try reflexivity; intros H; discriminate H.
Qed.

Lemma atoi_digits_strlwr (s : string) (acc : Z) :
  atoi_digits (strlwr s) acc = atoi_digits s acc.
Proof.
  revert acc. induction s as [|c r IH]; intros acc; [reflexivity|].
  cbn [strlwr atoi_digits].
  destruct (atoi_char_tolower c) as (_ & Hd & _ & _ & Hc).
  rewrite Hd. destruct (isdigit c); [|reflexivity].
  now rewrite (Hc eq_refl), IH.
Qed.

Lemma atoi_signed_strlwr (s : string) :
  atoi_signed (strlwr s) = atoi_signed s.
Proof.
  destruct s as [|c r]; [reflexivity|].
  cbn [strlwr atoi_signed].
  destruct (atoi_char_tolower c) as (_ & _ & Hm & Hp & _).
  rewrite Hm, Hp, atoi_digits_strlwr.
  destruct (Ascii.eqb c "-"); [reflexivity|].
  destruct (Ascii.eqb c "+"); [reflexivity|].
  exact (atoi_digits_strlwr (String c r) 0).
Qed.

Lemma atoi_strlwr (s : string) : atoi (strlwr s) = atoi s.
Proof.
  induction s as [|c r IH]; [reflexivity|].
  cbn [strlwr atoi].
  destruct (atoi_char_tolower c) as (Hs & _).
  rewrite Hs, IH. destruct (isspace c); [reflexivity|].
  exact (atoi_signed_strlwr (String c r)).
Qed.

Lemma to_int16_range (z : Z) : -32768 <= to_int16 z <= 32767.
Proof.
  unfold to_int16.
  pose proof (Z.mod_pos_bound (z + 32768) 65536 ltac:(lia)). lia.
Qed.

Section ModelFacts.

Context {codes : ModelCodes} {table : ModelTable}.

(** X2.  [strToModel] ignores letter case, in names and in what it reads as a
    number. *)
Theorem strToModel_ignores_case (s s' : string) (def : Z) :
  strlwr s = strlwr s' -> strToModel s def = strToModel s' def.
Proof.
  intros H.
  assert (Hn : atoi s = atoi s')
    by (rewrite <- (atoi_strlwr s), <- (atoi_strlwr s'); now rewrite H).
  unfold strToModel, STRCASECMP.
  rewrite !(strcasecmp_strlwr s s' H), Hn. reflexivity.
Qed.

(** X3.  What [strToModel] can answer: one of the model codes, the default, or
    a number from 1 to 32767, the value that [atoi] reads reduced to 16
    bits.  It never answers zero or a negative number that is neither the
    default nor a model code. *)
Theorem strToModel_answers (str : string) (def : Z) :
  In (strToModel str def) model_codes \/
  strToModel str def = def \/
  (0 < strToModel str def <= 32767 /\
   strToModel str def = to_int16 (atoi str)).
Proof.
  unfold strToModel, model_codes.
  repeat match goal with
         | |- context [if ?c then _ else _] =>
             destruct c eqn:?; [left; cbn [In]; tauto|]
         end.
  cbv zeta.
  destruct (to_int16 (atoi str) >? 0) eqn:E.
  - right. right. split; [|reflexivity].
    pose proof (to_int16_range (atoi str)). lia.
  - right. left. reflexivity.
Qed.

End ModelFacts.

(** The model scenarios: a name in lower case, a number, no match; and
    numbers that do not fit sixteen bits. *)
Example strToModel_examples :
  @strToModel codes_sample table_sample "akb75215403" 0 = 2 /\
  @strToModel codes_sample table_sample "7" 0 = 7 /\
  @strToModel codes_sample table_sample "garbage" 3 = 3 /\
  @strToModel codes_sample table_sample "40000" 9 = 9 /\
  @strToModel codes_sample table_sample "65537" 9 = 1.
Proof. repeat split. Qed.

(** ** The further theorems with hypotheses, at concrete inputs *)

(** X5 at a concrete input. *)
Lemma handleToggles_identity_on_other_unit_witness :
  @handleToggles codes_sample coolix_turbo_on (Some lg_cool) = coolix_turbo_on.
Proof.
  apply (handleToggles_identity_on_other_unit (codes := codes_sample)).
  intros p H. injection H as <-. left. discriminate.
Defined.

(** X6 at a concrete input. *)
Lemma handleToggles_identity_without_rule_witness :
  @handleToggles codes_sample lg_cool (Some (set_swingv swingv_t.kOff lg_cool))
  = lg_cool.
Proof.
  apply (handleToggles_identity_without_rule (codes := codes_sample)).
  cbn. intuition discriminate.
Defined.

(** X9 at a concrete input. *)
Lemma handleToggles_sleep_rule_witness :
  sleep (@handleToggles codes_sample coolix_everything_on
           (Some coolix_turbo_on)) = 0.
Proof.
  destruct (handleToggles_sleep_rule (codes := codes_sample)
              coolix_everything_on coolix_turbo_on
              eq_refl eq_refl (or_introl eq_refl)) as [_ [_ H]].
  apply H. cbn. lia.
Defined.

(** X10 at a concrete input. *)
Lemma handleToggles_toggle_involutive_witness :
  get_field Fturbo
    (@handleToggles codes_sample
       (@handleToggles codes_sample coolix_turbo_on (Some coolix_turbo_off))
       (Some coolix_turbo_off)) = true.
Proof.
  exact (handleToggles_toggle_involutive (codes := codes_sample)
           coolix_turbo_on coolix_turbo_off Fturbo
           eq_refl eq_refl (or_introl eq_refl)).
Defined.

(** X11 at a concrete input. *)
Lemma handleToggles_reads_only_rewrite_fields_witness :
  @handleToggles codes_sample coolix_turbo_on (Some coolix_turbo_off) =
  @handleToggles codes_sample coolix_turbo_on
    (Some (set_clock 600 coolix_turbo_off)).
Proof.
  exact (handleToggles_reads_only_rewrite_fields (codes := codes_sample)
           coolix_turbo_on coolix_turbo_off (set_clock 600 coolix_turbo_off)
           eq_refl eq_refl eq_refl eq_refl eq_refl eq_refl eq_refl eq_refl
           (conj (fun h => h) (fun h => h))
           (conj (fun h => h) (fun h => h))).
Defined.

(** X13 at a concrete input. *)
Lemma sendAc_accepts_only_supported_witness :
  isProtocolSupported build_all LG = true.
Proof.
  exact (sendAc_accepts_only_supported build_all
           (codes := codes_sample) (lgac := lg_sample)
           (rhossac := rhoss_sample) irac_sample lg_cool None eq_refl).
Defined.

(** X14 at a concrete input. *)
Lemma sendAc_refuses_exactly_unsupported_witness :
  isProtocolSupported build_light COOLIX = false.
Proof.
  apply (sendAc_refuses_exactly_unsupported build_light
           (codes := codes_sample) (lgac := lg_sample)
           (rhossac := rhoss_sample) irac_sample coolix_turbo_on None).
  - intros m. destruct m; cbn; intros H; try discriminate H; auto.
  - reflexivity.
Defined.

(** X15 at a concrete input. *)
Lemma sendAc_sends_cleaned_state_witness :
  powers_handed
    (snd (@sendAc build_all codes_sample lg_sample rhoss_sample irac_sample
            lg_mode_off_power_on None)) = [false].
Proof.
  exact (proj2 (sendAc_sends_cleaned_state build_all
                  (codes := codes_sample) (lgac := lg_sample)
                  (rhossac := rhoss_sample)
                  irac_sample lg_mode_off_power_on None eq_refl)).
Defined.

(** X16 at a concrete input. *)
Lemma sendAc_temperature_handed_witness :
  temps_handed
    (snd (@sendAc build_all codes_sample lg_sample rhoss_sample irac_sample
            (fahrenheit_72 RHOSS) None)) =
  [fahrenheitToCelsius (float_of_Z 72)].
Proof.
  exact (sendAc_temperature_handed build_all
           (codes := codes_sample) (lgac := lg_sample)
           (rhossac := rhoss_sample)
           irac_sample (fahrenheit_72 RHOSS) None eq_refl).
Defined.

(** X17 at a concrete input. *)
Lemma sendAc_lg_sets_every_vane_witness :
  vane_calls
    (lg_calls_of
       (snd (@sendAc build_all codes_sample lg_sample rhoss_sample
               irac_sample lg_cool None))) =
  [(0, 7); (1, 7); (2, 7); (3, 7); (4, 7); (5, 7)].
Proof.
  exact (sendAc_lg_sets_every_vane build_all
           (codes := codes_sample) (lgac := lg_sample)
           (rhossac := rhoss_sample)
           irac_sample lg_cool None (or_introl eq_refl) eq_refl).
Defined.

(** X18 at a concrete input. *)
Lemma sendAc_lg_swing_toggle_iff_witness :
  setSwingV_args
    (lg_calls_of
       (snd (@sendAc build_all codes_sample lg_sample rhoss_sample
               irac_sample lg_swing_high
               (Some (set_swingv swingv_t.kOff lg_swing_high))))) =
  [1; 0; 8813847].
Proof.
  destruct (sendAc_lg_swing_toggle_iff build_all
              (codes := codes_sample) (lgac := lg_sample)
              (rhossac := rhoss_sample)
              irac_sample lg_swing_high
              (Some (set_swingv swingv_t.kOff lg_swing_high))
              (or_introl eq_refl) eq_refl) as [_ [_ H]].
  apply H. split; [reflexivity|].
  intros [_ H2]. discriminate (H2 eq_refl).
Defined.

(** X19 at a concrete input. *)
Lemma sendAc_rhoss_reads_witness :
  @sendAc build_all codes_sample lg_sample rhoss_sample irac_sample
    (fahrenheit_72 RHOSS) None =
  @sendAc build_all codes_sample lg_sample rhoss_sample irac_sample
    (set_clock 600 (set_turbo true (fahrenheit_72 RHOSS)))
    (Some (fahrenheit_72 RHOSS)).
Proof.
  exact (sendAc_rhoss_reads build_all
           (codes := codes_sample) (lgac := lg_sample)
           (rhossac := rhoss_sample) irac_sample
           (fahrenheit_72 RHOSS)
           (set_clock 600 (set_turbo true (fahrenheit_72 RHOSS)))
           None (Some (fahrenheit_72 RHOSS))
           eq_refl eq_refl eq_refl eq_refl eq_refl eq_refl eq_refl
           (conj (fun h => h) (fun h => h))).
Defined.

(** X20 at a concrete input. *)
Lemma sendAc_lg_reads_witness :
  @sendAc build_all codes_sample lg_sample rhoss_sample irac_sample
    lg_cool None =
  @sendAc build_all codes_sample lg_sample rhoss_sample irac_sample
    (initState state_default LG 5 true opmode_t.kCool (float_of_Z 22) false
       fanspeed_t.kHigh swingv_t.kAuto swingh_t.kOff
       true true false true false false true 30 600)
    (Some state_default).
Proof.
  exact (sendAc_lg_reads build_all
           (codes := codes_sample) (lgac := lg_sample)
           (rhossac := rhoss_sample) irac_sample
           lg_cool
           (initState state_default LG 5 true opmode_t.kCool (float_of_Z 22)
              false fanspeed_t.kHigh swingv_t.kAuto swingh_t.kOff
              true true false true false false true 30 600)
           None (Some state_default)
           eq_refl (or_introl eq_refl) eq_refl eq_refl eq_refl eq_refl
           eq_refl eq_refl (conj (fun h => h) (fun h => h)) eq_refl eq_refl).
Defined.

(** X26 at a concrete input. *)
Lemma sendAc_void_again_no_swing_toggle_witness :
  fst (fst (@sendAc_void build_all codes_sample lg_sample rhoss_sample
              irac_lg_cool)) = true /\
  count_setSwingV
    (lg_calls_of
       (snd (@sendAc_void build_all codes_sample lg_sample rhoss_sample
               (snd (fst (@sendAc_void build_all codes_sample lg_sample
                            rhoss_sample irac_lg_cool)))))) = 2%nat.
Proof.
  destruct (sendAc_void_again_no_swing_toggle build_all
              (codes := codes_sample) (lgac := lg_sample)
              (rhossac := rhoss_sample) irac_lg_cool
              (or_introl eq_refl) eq_refl) as (H1 & _ & H3).
  split; [exact H1 | exact H3].
Defined.

(** X28 at a concrete input. *)
Lemma decodeToState_stores_witness :
  snd (@IRAcUtils.decodeToState build_all lg_sample lg_common_sample
         rhoss_common_sample (Some lg_frame) (Some state_default) None) =
  Some (@lg_toCommon lg_common_sample 142608389 LG None).
Proof.
  exact (decodeToState_stores build_all
           (lgac := lg_sample) (lgcommon := lg_common_sample)
           (rhosscommon := rhoss_common_sample)
           lg_frame state_default None eq_refl).
Defined.

(** X2 at a concrete input. *)
Lemma strToModel_ignores_case_witness :
  @strToModel codes_sample table_sample "akb75215403" 0 =
  @strToModel codes_sample table_sample "AKB75215403" 0.
Proof.
  exact (strToModel_ignores_case (codes := codes_sample)
           (table := table_sample) "akb75215403" "AKB75215403" 0 eq_refl).
Defined.

(** ** The flat overload, from the packaged state to the driver *)


Section FlatFacts.

Variable cfg : build_config.
Context {codes : ModelCodes} {lgac : IRLgAc} {rhossac : IRRhossAc}.



End FlatFacts.

